(** * Peripheral Heart Rate over LE Coded PHY: a model of
      samples/bluetooth/peripheral_hr_coded/src/main.c

    The sample is glue code over the Zephyr Bluetooth host, the kernel's
    work queue and the DK board library.  The model keeps the program's own
    state (its statics and file-scope buffers) in a record, records every
    call into those collaborators in a trace, and takes what the
    collaborators answer from an environment that sees the whole history. *)

From Stdlib Require Import ZArith Lia.
From stdpp Require Import base tactics option list strings.

Open Scope Z_scope.

(** ** Integer types of the source *)

Definition to_uint8 (z : Z) : Z := z mod 256.
Definition to_uint32 (z : Z) : Z := z mod 4294967296.

(** ** Sizing of the large advertising payload (main.c, lines 53-62) *)

Definition ADV_TARGET_TOTAL_LEN : Z := 1650.
(** [BT_DATA_MANUFACTURER_DATA] comes from <zephyr/bluetooth/gap.h>; the
    comment above the sizing macros gives its value: "Manufacturer Specific
    Data AD structures (type 0xFF)". *)
Definition BT_DATA_MANUFACTURER_DATA : Z := 0xff.
Definition MFG_AD_TYPE : Z := BT_DATA_MANUFACTURER_DATA.
Definition MFG_DATA_BYTES_PER_FULL_ENTRY : Z := 254.
Definition FULL_ENTRY_TOTAL_BYTES : Z := 1 + 1 + MFG_DATA_BYTES_PER_FULL_ENTRY.
Definition FULL_ENTRY_COUNT : Z := 6.
Definition LAST_ENTRY_TOTAL_BYTES : Z :=
  ADV_TARGET_TOTAL_LEN - FULL_ENTRY_COUNT * FULL_ENTRY_TOTAL_BYTES.
Definition LAST_ENTRY_DATA_LEN : Z := LAST_ENTRY_TOTAL_BYTES - 2.

(** The two [BUILD_ASSERT]s, as the conditions the compiler evaluates. *)
Definition BUILD_ASSERT_full_entry_sizing : bool := FULL_ENTRY_TOTAL_BYTES =? 256.
Definition BUILD_ASSERT_last_entry_positive : bool := LAST_ENTRY_DATA_LEN >? 0.

Definition MFG_COMPANY_ID_LSB : Z := 0x59.
Definition MFG_COMPANY_ID_MSB : Z := 0x00.

(** ** Other macros of the file *)

Inductive dk_led := DK_LED1 | DK_LED2.
Definition RUN_STATUS_LED : dk_led := DK_LED1.
Definition CON_STATUS_LED : dk_led := DK_LED2.
Definition RUN_LED_BLINK_INTERVAL : Z := 1000.
Definition NOTIFY_INTERVAL : Z := 1000.

(** ** Data *)

(** Where the [data] pointer of a [struct bt_data] points: the entries of
    [ad_large] alias the static buffers, they do not copy them. *)
Inductive buf_ptr :=
| NULL
| adv_mfg_full_row (i : Z)      (* adv_mfg_full[i] *)
| adv_mfg_last_buf.             (* adv_mfg_last *)

Record bt_data := mk_bt_data {
  type : Z;
  data_len : Z;
  data : buf_ptr
}.

(** The two work items defined with K_WORK_DEFINE / K_WORK_DELAYABLE_DEFINE. *)
Inductive work_item := start_advertising_worker | notify_work.

Inductive k_timeout := K_NO_WAIT | K_MSEC (ms : Z).

(** Advertising options and intervals are named constants of the Bluetooth
    headers; the model keeps the names. *)
Inductive adv_opt :=
| BT_LE_ADV_OPT_CONN
| BT_LE_ADV_OPT_EXT_ADV
| BT_LE_ADV_OPT_CODED
| BT_LE_ADV_OPT_REQUIRE_S8_CODING.

Inductive adv_interval :=
| BT_GAP_ADV_FAST_INT_MIN_2
| BT_GAP_ADV_FAST_INT_MAX_2
| BT_GAP_ADV_SLOW_INT_MIN
| BT_GAP_ADV_SLOW_INT_MAX.

(** BT_LE_ADV_PARAM_INIT(options, interval_min, interval_max, peer);
    [options] lists the flags that are or-ed together, the peer is NULL in
    both uses. *)
Record bt_le_adv_param := BT_LE_ADV_PARAM_INIT {
  options : list adv_opt;
  interval_min : adv_interval;
  interval_max : adv_interval
}.

(** Which array of AD entries is handed to bt_le_ext_adv_set_data. *)
Inductive ad_array := ad_conn | ad_large_array.

(** struct bt_conn_le_phy_info, the part of struct bt_conn_info read here. *)
Record bt_conn_le_phy_info := mk_phy_info { tx_phy : Z; rx_phy : Z }.

Inductive printk_arg :=
| arg_int (z : Z)
| arg_str (s : string)
| arg_ptr (p : Z).

(** One constructor per function of the Bluetooth host, the kernel and the
    board library that main.c calls, with the arguments it passes and, where
    main.c uses what the function hands back, that result last. *)
Inductive Event :=
| ev_printk (fmt : string) (args : list printk_arg)
| ev_bt_conn_get_dst (conn : Z) (ret : Z)
| ev_bt_addr_le_to_str (addr : Z) (str : string)
| ev_bt_hci_err_to_str (err : Z) (ret : string)
| ev_bt_conn_get_info (conn : Z) (ret : Z) (phy_info : bt_conn_le_phy_info)
| ev_dk_leds_init (ret : Z)
| ev_dk_set_led_on (led : dk_led)
| ev_dk_set_led_off (led : dk_led)
| ev_dk_set_led (led : dk_led) (val : Z)
| ev_k_work_submit (w : work_item)
| ev_k_work_schedule (w : work_item) (delay : k_timeout)
| ev_k_work_reschedule (w : work_item) (delay : k_timeout)
| ev_k_sleep (t : k_timeout)
| ev_bt_enable (ret : Z)
| ev_bt_le_ext_adv_create (param : bt_le_adv_param) (ret : Z) (adv : Z)
| ev_bt_le_ext_adv_set_data (adv : Z) (ad : ad_array) (ad_len : Z) (ret : Z)
| ev_bt_le_ext_adv_start (adv : Z) (ret : Z)
| ev_bt_bas_get_battery_level (ret : Z)
| ev_bt_bas_set_battery_level (level : Z)
| ev_bt_hrs_notify (heartrate : Z).

(** The program's statics, the battery service's level, and the history of
    calls. *)
Record World := mkWorld {
  heartrate : Z;                       (* static uint8_t heartrate in hrs_notify *)
  adv_conn : Z;                        (* static struct bt_le_ext_adv *adv_conn *)
  adv_large : Z;                       (* static struct bt_le_ext_adv *adv_large *)
  adv_mfg_full : list (list Z);        (* uint8_t adv_mfg_full[6][254] *)
  adv_mfg_last : list Z;               (* uint8_t adv_mfg_last[112] *)
  ad_large : list bt_data;             (* struct bt_data ad_large[7] *)
  bas_battery_level : Z;               (* the level the battery service holds *)
  trace : list Event
}.

(** The state at boot: statics zero-initialised, [heartrate] at its
    initialiser 100, nothing called yet.  The battery service starts at the
    level it is given. *)
Definition zero_bt_data : bt_data := mk_bt_data 0 0 NULL.

Definition boot_world (battery : Z) : World :=
  {| heartrate := 100;
     adv_conn := 0;
     adv_large := 0;
     adv_mfg_full :=
       replicate (Z.to_nat FULL_ENTRY_COUNT)
                 (replicate (Z.to_nat MFG_DATA_BYTES_PER_FULL_ENTRY) 0);
     adv_mfg_last := replicate (Z.to_nat LAST_ENTRY_DATA_LEN) 0;
     ad_large := replicate (Z.to_nat (FULL_ENTRY_COUNT + 1)) zero_bt_data;
     bas_battery_level := battery;
     trace := [] |}.

Definition set_heartrate (v : Z) (w : World) : World :=
  mkWorld v (adv_conn w) (adv_large w) (adv_mfg_full w) (adv_mfg_last w)
          (ad_large w) (bas_battery_level w) (trace w).
Definition set_adv_conn (v : Z) (w : World) : World :=
  mkWorld (heartrate w) v (adv_large w) (adv_mfg_full w) (adv_mfg_last w)
          (ad_large w) (bas_battery_level w) (trace w).
Definition set_adv_large (v : Z) (w : World) : World :=
  mkWorld (heartrate w) (adv_conn w) v (adv_mfg_full w) (adv_mfg_last w)
          (ad_large w) (bas_battery_level w) (trace w).
Definition set_adv_mfg_full (v : list (list Z)) (w : World) : World :=
  mkWorld (heartrate w) (adv_conn w) (adv_large w) v (adv_mfg_last w)
          (ad_large w) (bas_battery_level w) (trace w).
Definition set_adv_mfg_last (v : list Z) (w : World) : World :=
  mkWorld (heartrate w) (adv_conn w) (adv_large w) (adv_mfg_full w) v
          (ad_large w) (bas_battery_level w) (trace w).
Definition set_ad_large (v : list bt_data) (w : World) : World :=
  mkWorld (heartrate w) (adv_conn w) (adv_large w) (adv_mfg_full w)
          (adv_mfg_last w) v (bas_battery_level w) (trace w).
Definition set_bas_battery_level (v : Z) (w : World) : World :=
  mkWorld (heartrate w) (adv_conn w) (adv_large w) (adv_mfg_full w)
          (adv_mfg_last w) (ad_large w) v (trace w).
Definition set_trace (v : list Event) (w : World) : World :=
  mkWorld (heartrate w) (adv_conn w) (adv_large w) (adv_mfg_full w)
          (adv_mfg_last w) (ad_large w) (bas_battery_level w) v.

(** ** The monad: state, and the two ways a run can stop *)

Inductive stop_reason :=
| assertion_failed       (* __ASSERT_NO_MSG with CONFIG_ASSERT enabled *)
| out_of_bounds.         (* an array index outside the declared array *)

Inductive Res (A : Type) :=
| Ok (a : A) (w : World)
| Stop (r : stop_reason) (w : World).
Arguments Ok {A} a w.
Arguments Stop {A} r w.

Definition M (A : Type) : Type := World -> Res A.

#[global] Instance M_ret : MRet M := fun A a w => Ok a w.
#[global] Instance M_bind : MBind M := fun A B f m w =>
  match m w with
  | Ok a w' => f a w'
  | Stop r w' => Stop r w'
  end.

Definition get_world : M World := fun w => Ok w w.
Definition modify (f : World -> World) : M unit := fun w => Ok tt (f w).
Definition stop {A} (r : stop_reason) : M A := fun w => Stop r w.

(** Record a call in the history. *)
Definition emit (e : Event) : M unit :=
  modify (fun w => set_trace (trace w ++ [e]) w).

Definition printk (fmt : string) (args : list printk_arg) : M unit :=
  emit (ev_printk fmt args).

(** [for (i = lo; i < hi; i++) body(i)], for a body that leaves [i] alone. *)
Fixpoint for_count (n : nat) (i : Z) (body : Z -> M unit) : M unit :=
  match n with
  | O => mret tt
  | S n' => body i;; for_count n' (i + 1) body
  end.
Definition for_range (lo hi : Z) (body : Z -> M unit) : M unit :=
  for_count (Z.to_nat (hi - lo)) lo body.

(** ** Array accesses *)

Definition in_bounds {A} (i : Z) (l : list A) : bool :=
  (0 <=? i) && (i <? Z.of_nat (length l)).

(** [p[j] = v] for [uint8_t *p]. *)
Definition store_byte (p : buf_ptr) (j : Z) (v : Z) : M unit :=
  w ← get_world;
  match p with
  | NULL => stop out_of_bounds
  | adv_mfg_full_row i =>
      match adv_mfg_full w !! Z.to_nat i with
      | Some row =>
          if (0 <=? i) && in_bounds j row then
            modify (set_adv_mfg_full
                      (<[Z.to_nat i := <[Z.to_nat j := to_uint8 v]> row]>
                         (adv_mfg_full w)))
          else stop out_of_bounds
      | None => stop out_of_bounds
      end
  | adv_mfg_last_buf =>
      if in_bounds j (adv_mfg_last w) then
        modify (set_adv_mfg_last (<[Z.to_nat j := to_uint8 v]> (adv_mfg_last w)))
      else stop out_of_bounds
  end.

(** [ad_large[i].field = v]: one field of one element is replaced. *)
Definition store_ad_large (i : Z) (f : bt_data -> bt_data) : M unit :=
  w ← get_world;
  match ad_large w !! Z.to_nat i with
  | Some e =>
      if 0 <=? i then modify (set_ad_large (<[Z.to_nat i := f e]> (ad_large w)))
      else stop out_of_bounds
  | None => stop out_of_bounds
  end.

Definition set_type (v : Z) (e : bt_data) : bt_data :=
  mk_bt_data v (data_len e) (data e).
Definition set_data_len (v : Z) (e : bt_data) : bt_data :=
  mk_bt_data (type e) v (data e).
Definition set_data (v : buf_ptr) (e : bt_data) : bt_data :=
  mk_bt_data (type e) (data_len e) v.

(** The bytes a [buf_ptr] points to. *)
Definition deref (w : World) (p : buf_ptr) : list Z :=
  match p with
  | NULL => []
  | adv_mfg_full_row i =>
      if 0 <=? i then default [] (adv_mfg_full w !! Z.to_nat i) else []
  | adv_mfg_last_buf => adv_mfg_last w
  end.

(** ** build_large_adv_payload (main.c, lines 73-101) *)

Definition build_large_adv_payload : M unit :=
  for_range 0 FULL_ENTRY_COUNT (fun i =>
    let buf := adv_mfg_full_row i in
    store_byte buf 0 MFG_COMPANY_ID_LSB;;
    store_byte buf 1 MFG_COMPANY_ID_MSB;;
    for_range 2 MFG_DATA_BYTES_PER_FULL_ENTRY (fun j =>
      store_byte buf j (to_uint8 (i + 1)));;
    store_ad_large i (set_type MFG_AD_TYPE);;
    store_ad_large i (set_data_len MFG_DATA_BYTES_PER_FULL_ENTRY);;
    store_ad_large i (set_data buf));;
  store_byte adv_mfg_last_buf 0 MFG_COMPANY_ID_LSB;;
  store_byte adv_mfg_last_buf 1 MFG_COMPANY_ID_MSB;;
  for_range 2 LAST_ENTRY_DATA_LEN (fun j =>
    store_byte adv_mfg_last_buf j 0xEE);;
  store_ad_large FULL_ENTRY_COUNT (set_type MFG_AD_TYPE);;
  store_ad_large FULL_ENTRY_COUNT (set_data_len LAST_ENTRY_DATA_LEN);;
  store_ad_large FULL_ENTRY_COUNT (set_data adv_mfg_last_buf).

(** What the payload occupies on air. *)
Definition entry_total_bytes (e : bt_data) : Z := 1 + 1 + data_len e.
Definition payload_total_bytes (ad : list bt_data) : Z :=
  foldr Z.add 0 (entry_total_bytes <$> ad).
(** The data bytes of an entry: [data_len] bytes from where [data] points. *)
Definition entry_bytes (w : World) (e : bt_data) : list Z :=
  take (Z.to_nat (data_len e)) (deref w (data e)).

(** The buffers have the dimensions of their declarations. *)
Definition buffers_as_declared (w : World) : bool :=
  (length (adv_mfg_full w) =? Z.to_nat FULL_ENTRY_COUNT)%nat
  && forallb (fun row => (length row =? Z.to_nat MFG_DATA_BYTES_PER_FULL_ENTRY)%nat)
             (adv_mfg_full w)
  && (length (adv_mfg_last w) =? Z.to_nat LAST_ENTRY_DATA_LEN)%nat
  && (length (ad_large w) =? Z.to_nat (FULL_ENTRY_COUNT + 1))%nat.

(** ** The collaborators *)

(** The PHY codes are enumerators of <zephyr/bluetooth/gap.h>, which is not
    part of the sample; they are parameters of the model. *)
Record gap_phy := mk_gap_phy {
  BT_GAP_LE_PHY_NONE : Z;
  BT_GAP_LE_PHY_1M : Z;
  BT_GAP_LE_PHY_2M : Z;
  BT_GAP_LE_PHY_CODED : Z;
  BT_GAP_LE_PHY_CODED_S8 : Z;
  BT_GAP_LE_PHY_CODED_S2 : Z
}.

(** The case labels of a [switch] are pairwise distinct, or it does not
    compile. *)
Definition phy_codes_distinct (phy : gap_phy) : Prop :=
  NoDup [BT_GAP_LE_PHY_NONE phy; BT_GAP_LE_PHY_1M phy; BT_GAP_LE_PHY_2M phy;
         BT_GAP_LE_PHY_CODED phy; BT_GAP_LE_PHY_CODED_S8 phy;
         BT_GAP_LE_PHY_CODED_S2 phy].

(** What the Bluetooth host and the board library answer.  Every answer may
    depend on the whole history of calls and on the arguments of the call. *)
Record Env := mk_Env {
  CONFIG_ASSERT : bool;      (* whether __ASSERT_NO_MSG checks anything *)
  bt_conn_get_dst_ret : list Event -> Z -> Z;
  bt_addr_le_to_str_out : list Event -> Z -> string;
  bt_hci_err_to_str_ret : list Event -> Z -> string;
  (* the return value and the PHY part of *info *)
  bt_conn_get_info_ret : list Event -> Z -> Z * bt_conn_le_phy_info;
  dk_leds_init_ret : list Event -> Z;
  bt_enable_ret : list Event -> Z;
  (* the return value and what *adv holds afterwards, from the parameters
     and what *adv held before *)
  bt_le_ext_adv_create_ret : list Event -> bt_le_adv_param -> Z -> Z * Z;
  bt_le_ext_adv_set_data_ret : list Event -> Z -> ad_array -> Z -> Z;
  bt_le_ext_adv_start_ret : list Event -> Z -> Z
}.

Definition LF : string := String (Ascii.ascii_of_nat 10) EmptyString.

(** C's truth value of an integer. *)
Definition c_true (z : Z) : bool := negb (z =? 0).

(** A call: the answer is taken from the history before the call, and the
    call joins the history together with its answer. *)
Definition call {A} (answer : list Event -> A) (e : A -> Event) : M A :=
  fun w =>
    let a := answer (trace w) in
    Ok a (set_trace (trace w ++ [e a]) w).

Definition gets {A} (f : World -> A) : M A := fun w => Ok (f w) w.

Section Sample.

Variable phy : gap_phy.
Variable env : Env.

Definition bt_conn_get_dst (conn : Z) : M Z :=
  call (fun h => bt_conn_get_dst_ret env h conn) (ev_bt_conn_get_dst conn).
Definition bt_addr_le_to_str (addr : Z) : M string :=
  call (fun h => bt_addr_le_to_str_out env h addr) (ev_bt_addr_le_to_str addr).
Definition bt_hci_err_to_str (err : Z) : M string :=
  call (fun h => bt_hci_err_to_str_ret env h err) (ev_bt_hci_err_to_str err).
Definition bt_conn_get_info (conn : Z) : M (Z * bt_conn_le_phy_info) :=
  call (fun h => bt_conn_get_info_ret env h conn)
       (fun r => ev_bt_conn_get_info conn r.1 r.2).
Definition dk_leds_init : M Z := call (dk_leds_init_ret env) ev_dk_leds_init.
Definition bt_enable : M Z := call (bt_enable_ret env) ev_bt_enable.
Definition bt_le_ext_adv_create (param : bt_le_adv_param) (adv : Z) : M (Z * Z) :=
  call (fun h => bt_le_ext_adv_create_ret env h param adv)
       (fun r => ev_bt_le_ext_adv_create param r.1 r.2).
Definition bt_le_ext_adv_set_data (adv : Z) (ad : ad_array) (ad_len : Z) : M Z :=
  call (fun h => bt_le_ext_adv_set_data_ret env h adv ad ad_len)
       (ev_bt_le_ext_adv_set_data adv ad ad_len).
Definition bt_le_ext_adv_start (adv : Z) : M Z :=
  call (fun h => bt_le_ext_adv_start_ret env h adv) (ev_bt_le_ext_adv_start adv).

(** Calls whose result main.c ignores. *)
Definition dk_set_led_on (led : dk_led) : M unit := emit (ev_dk_set_led_on led).
Definition dk_set_led_off (led : dk_led) : M unit := emit (ev_dk_set_led_off led).
Definition dk_set_led (led : dk_led) (val : Z) : M unit := emit (ev_dk_set_led led val).
Definition k_work_submit (wk : work_item) : M unit := emit (ev_k_work_submit wk).
Definition k_work_schedule (wk : work_item) (delay : k_timeout) : M unit :=
  emit (ev_k_work_schedule wk delay).
Definition k_work_reschedule (wk : work_item) (delay : k_timeout) : M unit :=
  emit (ev_k_work_reschedule wk delay).
Definition k_sleep (t : k_timeout) : M unit := emit (ev_k_sleep t).
Definition bt_hrs_notify (hr : Z) : M unit := emit (ev_bt_hrs_notify hr).

(** Modelled from the spec: the battery service is part of the Bluetooth
    host, not of the sample.  The spec's battery counter keeps its level from
    one notification to the next, so the service is a cell: the getter reads
    the level, the setter replaces it. *)
Definition bt_bas_get_battery_level : M Z :=
  level ← gets bas_battery_level;
  emit (ev_bt_bas_get_battery_level level);;
  mret level.
Definition bt_bas_set_battery_level (level : Z) : M unit :=
  emit (ev_bt_bas_set_battery_level level);;
  modify (set_bas_battery_level level).

(** __ASSERT_NO_MSG(test) *)
Definition __ASSERT_NO_MSG (test : bool) : M unit :=
  if CONFIG_ASSERT env && negb test then stop assertion_failed else mret tt.

(** ** phy_to_str (main.c, lines 104-121) *)

Definition phy_to_str (code : Z) : string :=
  if code =? BT_GAP_LE_PHY_NONE phy then "No packets"
  else if code =? BT_GAP_LE_PHY_1M phy then "LE 1M"
  else if code =? BT_GAP_LE_PHY_2M phy then "LE 2M"
  else if code =? BT_GAP_LE_PHY_CODED phy then "LE Coded"
  else if code =? BT_GAP_LE_PHY_CODED_S8 phy then "S=8 Coded"
  else if code =? BT_GAP_LE_PHY_CODED_S2 phy then "S=2 Coded"
  else "Unknown".

(** ** connected (main.c, lines 123-148) *)

Definition connected (conn : Z) (conn_err : Z) : M unit :=
  dst ← bt_conn_get_dst conn;
  addr ← bt_addr_le_to_str dst;
  if c_true conn_err then
    s ← bt_hci_err_to_str conn_err;
    printk ("Connection failed, err 0x%02x %s" +:+ LF) [arg_int conn_err; arg_str s]
  else
    r ← bt_conn_get_info conn;
    let err := r.1 in
    (if c_true err then
       printk ("Failed to get connection info (err %d)" +:+ LF) [arg_int err]
     else
       let phy_info := r.2 in
       printk ("Connected: %s, tx_phy %s, rx_phy %s" +:+ LF)
              [arg_str addr; arg_str (phy_to_str (tx_phy phy_info));
               arg_str (phy_to_str (rx_phy phy_info))]);;
    dk_set_led_on CON_STATUS_LED.

(** ** disconnected (main.c, lines 150-157) *)

Definition disconnected (conn : Z) (reason : Z) : M unit :=
  s ← bt_hci_err_to_str reason;
  printk ("Disconnected, reason 0x%02x %s" +:+ LF) [arg_int reason; arg_str s];;
  k_work_submit start_advertising_worker;;
  dk_set_led_off CON_STATUS_LED.

(** ** create_advertising_coded (main.c, lines 172-225) *)

(** ARRAY_SIZE of the two AD arrays: [ad_conn] has three initialisers,
    [ad_large] is declared with FULL_ENTRY_COUNT + 1 elements. *)
Definition ARRAY_SIZE (ad : ad_array) : Z :=
  match ad with
  | ad_conn => 3
  | ad_large_array => FULL_ENTRY_COUNT + 1
  end.

Definition create_advertising_coded : M Z :=
  let param_conn :=
    BT_LE_ADV_PARAM_INIT
      [BT_LE_ADV_OPT_CONN; BT_LE_ADV_OPT_EXT_ADV; BT_LE_ADV_OPT_CODED;
       BT_LE_ADV_OPT_REQUIRE_S8_CODING]
      BT_GAP_ADV_FAST_INT_MIN_2 BT_GAP_ADV_FAST_INT_MAX_2 in
  let param_large :=
    BT_LE_ADV_PARAM_INIT
      [BT_LE_ADV_OPT_EXT_ADV; BT_LE_ADV_OPT_CODED; BT_LE_ADV_OPT_REQUIRE_S8_CODING]
      BT_GAP_ADV_SLOW_INT_MIN BT_GAP_ADV_SLOW_INT_MAX in
  old ← gets adv_conn;
  r ← bt_le_ext_adv_create param_conn old;
  modify (set_adv_conn r.2);;
  let err := r.1 in
  if c_true err then
    printk ("Failed to create connectable advertiser (err %d)" +:+ LF) [arg_int err];;
    mret err
  else
  a ← gets adv_conn;
  printk ("Created connectable adv: %p" +:+ LF) [arg_ptr a];;
  a ← gets adv_conn;
  err ← bt_le_ext_adv_set_data a ad_conn (ARRAY_SIZE ad_conn);
  if c_true err then
    printk ("Failed to set connectable adv data (err %d)" +:+ LF) [arg_int err];;
    mret err
  else
  old ← gets adv_large;
  r ← bt_le_ext_adv_create param_large old;
  modify (set_adv_large r.2);;
  let err := r.1 in
  if c_true err then
    printk ("Failed to create large advertiser (err %d)" +:+ LF) [arg_int err];;
    mret err
  else
  a ← gets adv_large;
  printk ("Created large adv: %p" +:+ LF) [arg_ptr a];;
  build_large_adv_payload;;
  a ← gets adv_large;
  err ← bt_le_ext_adv_set_data a ad_large_array (ARRAY_SIZE ad_large_array);
  if c_true err then
    printk ("Failed to set large adv data (err %d)" +:+ LF) [arg_int err];;
    mret err
  else
  mret 0.

(** ** start_advertising_coded (main.c, lines 227-246) *)

Definition start_advertising_coded (work : work_item) : M unit :=
  a ← gets adv_conn;
  err ← bt_le_ext_adv_start a;
  if c_true err then
    printk ("Failed to start connectable advertiser (err %d)" +:+ LF) [arg_int err]
  else
  a ← gets adv_conn;
  printk ("Connectable advertiser %p started" +:+ LF) [arg_ptr a];;
  a ← gets adv_large;
  err ← bt_le_ext_adv_start a;
  if c_true err then
    printk ("Failed to start large advertiser (err %d)" +:+ LF) [arg_int err]
  else
  a ← gets adv_large;
  printk ("Large advertiser %p started" +:+ LF) [arg_ptr a].

(** ** bas_notify (main.c, lines 248-261) *)

Definition bas_notify : M unit :=
  level ← bt_bas_get_battery_level;
  let battery_level := to_uint8 level in
  __ASSERT_NO_MSG (battery_level >? 0);;
  let battery_level := to_uint8 (battery_level - 1) in
  let battery_level := if battery_level =? 0 then 100 else battery_level in
  bt_bas_set_battery_level battery_level.

(** ** hrs_notify (main.c, lines 263-273) *)

Definition hrs_notify : M unit :=
  h ← gets heartrate;
  modify (set_heartrate (to_uint8 (h + 1)));;
  h ← gets heartrate;
  (if h =? 160 then modify (set_heartrate 100) else mret tt);;
  h ← gets heartrate;
  bt_hrs_notify h.

(** ** notify_work_handler (main.c, lines 275-282) *)

(** The delayable work item that contains [work]; the names of the model
    already stand for the containing item. *)
Definition k_work_delayable_from_work (work : work_item) : work_item := work.

Definition notify_work_handler (work : work_item) : M unit :=
  hrs_notify;;
  bas_notify;;
  k_work_reschedule (k_work_delayable_from_work work) (K_MSEC NOTIFY_INTERVAL).

(** ** main (main.c, lines 284-318) *)

(** [for (;;)] never exits: the model runs a given number of rounds of it and
    then reports that main has not returned. *)
Fixpoint status_loop (rounds : nat) (led_status : Z) : M (option Z) :=
  match rounds with
  | O => mret None
  | S rounds' =>
      let led_status := to_uint32 (led_status + 1) in
      dk_set_led RUN_STATUS_LED (led_status mod 2);;
      k_sleep (K_MSEC RUN_LED_BLINK_INTERVAL);;
      status_loop rounds' led_status
  end.

(** [Some r]: main returned [r]; [None]: main is still in its loop. *)
Definition main (rounds : nat) : M (option Z) :=
  let led_status := 0 in
  printk ("Starting Bluetooth Peripheral HR coded sample" +:+ LF) [];;
  err ← dk_leds_init;
  if c_true err then
    printk ("LEDs init failed (err %d)" +:+ LF) [arg_int err];;
    mret (Some 0)
  else
  err ← bt_enable;
  if c_true err then
    printk ("Bluetooth init failed (err %d)" +:+ LF) [arg_int err];;
    mret (Some 0)
  else
  printk ("Bluetooth initialized" +:+ LF) [];;
  err ← create_advertising_coded;
  if c_true err then
    printk ("Advertising failed to create (err %d)" +:+ LF) [arg_int err];;
    mret (Some 0)
  else
  k_work_submit start_advertising_worker;;
  k_work_schedule notify_work K_NO_WAIT;;
  status_loop rounds led_status.

End Sample.

(** [n] invocations in a row. *)
Fixpoint repeat_run (n : nat) (m : M unit) : M unit :=
  match n with
  | O => mret tt
  | S n' => m;; repeat_run n' m
  end.

(** The values handed to bt_hrs_notify, and to bt_bas_set_battery_level, in
    the order of the calls. *)
Definition hrs_notified (t : list Event) : list Z :=
  omap (fun e => match e with ev_bt_hrs_notify v => Some v | _ => None end) t.
Definition bas_levels_set (t : list Event) : list Z :=
  omap (fun e => match e with ev_bt_bas_set_battery_level v => Some v | _ => None end) t.

(** ** What build_large_adv_payload leaves behind *)

(** The body of its first loop. *)
Definition full_entry_body (i : Z) : M unit :=
  let buf := adv_mfg_full_row i in
  store_byte buf 0 MFG_COMPANY_ID_LSB;;
  store_byte buf 1 MFG_COMPANY_ID_MSB;;
  for_range 2 MFG_DATA_BYTES_PER_FULL_ENTRY (fun j =>
    store_byte buf j (to_uint8 (i + 1)));;
  store_ad_large i (set_type MFG_AD_TYPE);;
  store_ad_large i (set_data_len MFG_DATA_BYTES_PER_FULL_ENTRY);;
  store_ad_large i (set_data buf).

Definition full_row_bytes (i : Z) : list Z :=
  MFG_COMPANY_ID_LSB :: MFG_COMPANY_ID_MSB
    :: replicate (Z.to_nat (MFG_DATA_BYTES_PER_FULL_ENTRY - 2)) (i + 1).
Definition last_row_bytes : list Z :=
  MFG_COMPANY_ID_LSB :: MFG_COMPANY_ID_MSB
    :: replicate (Z.to_nat (LAST_ENTRY_DATA_LEN - 2)) 0xEE.
Definition full_entry (i : Z) : bt_data :=
  mk_bt_data MFG_AD_TYPE MFG_DATA_BYTES_PER_FULL_ENTRY (adv_mfg_full_row i).
Definition last_entry : bt_data :=
  mk_bt_data MFG_AD_TYPE LAST_ENTRY_DATA_LEN adv_mfg_last_buf.

Definition built_world (w : World) : World :=
  set_ad_large ((full_entry <$> [0; 1; 2; 3; 4; 5]) ++ [last_entry])
    (set_adv_mfg_last last_row_bytes
       (set_adv_mfg_full (full_row_bytes <$> [0; 1; 2; 3; 4; 5]) w)).

(** What [for (j = j0; j < j0 + n; j++) buf[j] = c] does to the bytes. *)
Fixpoint fill_list (n j : nat) (c : Z) (l : list Z) : list Z :=
  match n with
  | O => l
  | S n' => fill_list n' (S j) c (<[j := c]> l)
  end.

(** ** The simulated counters, one invocation at a time *)

(** [heartrate] after one more hrs_notify, and the values that [n]
    invocations hand to bt_hrs_notify. *)
Definition hr_next (h : Z) : Z :=
  let h := to_uint8 (h + 1) in
  if h =? 160 then 100 else h.

Fixpoint hr_seq (h : Z) (n : nat) : list Z :=
  match n with
  | O => []
  | S n' => hr_next h :: hr_seq (hr_next h) n'
  end.

(** The level bas_notify writes when it reads [b], and the levels that [n]
    invocations write. *)
Definition bas_next (b : Z) : Z :=
  let b := to_uint8 (to_uint8 b - 1) in
  if b =? 0 then 100 else b.

Fixpoint bas_seq (b : Z) (n : nat) : list Z :=
  match n with
  | O => []
  | S n' => bas_next b :: bas_seq (bas_next b) n'
  end.

(** The two update rules in the words of the specification. *)
Definition increment_then_wrap (h : Z) : Z := if h + 1 =? 160 then 100 else h + 1.
Definition decrement_then_wrap (b : Z) : Z := if b - 1 =? 0 then 100 else b - 1.

(** The calls of one bas_notify that reads [b] and writes [v]. *)
Definition bas_round (b v : Z) : list Event :=
  [ev_bt_bas_get_battery_level b; ev_bt_bas_set_battery_level v].

(** The calls of [n] bas_notify in a row, the first reading [b]. *)
Fixpoint bas_rounds (b : Z) (n : nat) : list Event :=
  match n with
  | O => []
  | S n' => bas_round b (bas_next b) ++ bas_rounds (bas_next b) n'
  end.

(** ** Reading a trace *)

(** The result of a call of the startup path: LED initialisation, stack
    enable, advertising-set creation, advertising-data assignment. *)
Definition startup_call_result (e : Event) : option Z :=
  match e with
  | ev_dk_leds_init r => Some r
  | ev_bt_enable r => Some r
  | ev_bt_le_ext_adv_create _ r _ => Some r
  | ev_bt_le_ext_adv_set_data _ _ _ r => Some r
  | _ => None
  end.

(** The event is not a failed startup call. *)
Definition result_ok (e : Event) : Prop :=
  forall err, startup_call_result e = Some err -> err = 0.

(** A log line that carries the numeric code [err] and nothing else. *)
Definition logs_code (err : Z) (e : Event) : Prop :=
  exists fmt, e = ev_printk fmt [arg_int err].

(** Advertising is started by bt_le_ext_adv_start, which main.c reaches
    only through the work item start_advertising_worker. *)
Definition requests_advertising (e : Event) : bool :=
  match e with
  | ev_k_work_submit start_advertising_worker => true
  | ev_bt_le_ext_adv_start _ _ => true
  | _ => false
  end.

Definition is_led_event (e : Event) : bool :=
  match e with
  | ev_dk_set_led_on _ | ev_dk_set_led_off _ | ev_dk_set_led _ _ => true
  | _ => false
  end.

Definition is_conn_info_query (e : Event) : bool :=
  match e with
  | ev_bt_conn_get_info _ _ _ => true
  | _ => false
  end.

(** The run made its calls [pre] without a failure, then a startup call
    answered [err], and [tail] is all that followed. *)
Definition stopped_at_failure (new : list Event) (err : Z) (tail : list Event) : Prop :=
  exists pre e,
    new = pre ++ e :: tail /\ Forall result_ok pre
    /\ startup_call_result e = Some err /\ err <> 0.

Definition is_work_submission (e : Event) : bool :=
  match e with
  | ev_k_work_submit _ | ev_k_work_schedule _ _ | ev_k_work_reschedule _ _ => true
  | _ => false
  end.

Definition is_adv_start (e : Event) : bool :=
  match e with
  | ev_bt_le_ext_adv_start _ _ => true
  | _ => false
  end.

(** ** Concrete collaborators, for running the model *)

(** One assignment of pairwise distinct PHY codes: 0 and the bits 0 to 4. *)
Definition example_gap_phy : gap_phy := mk_gap_phy 0 1 2 4 8 16.

(** A host where every call succeeds: advertising sets get the handles 1
    and 2, connections run on the coded PHY. *)
Definition env_all_ok : Env :=
  {| CONFIG_ASSERT := true;
     bt_conn_get_dst_ret := fun _ conn => conn + 8;
     bt_addr_le_to_str_out := fun _ _ => "C0:FF:EE:00:00:01 (random)";
     bt_hci_err_to_str_ret := fun _ _ => "HCI error";
     bt_conn_get_info_ret := fun _ _ => (0, mk_phy_info 4 4);
     dk_leds_init_ret := fun _ => 0;
     bt_enable_ret := fun _ => 0;
     bt_le_ext_adv_create_ret := fun _ param _ =>
       (0, match interval_min param with BT_GAP_ADV_SLOW_INT_MIN => 2 | _ => 1 end);
     bt_le_ext_adv_set_data_ret := fun _ _ _ _ => 0;
     bt_le_ext_adv_start_ret := fun _ _ => 0 |}.

(** The same host, but creating the large advertising set fails with
    -ENOMEM (-12) and leaves the handle alone. *)
Definition env_large_create_fails : Env :=
  {| CONFIG_ASSERT := true;
     bt_conn_get_dst_ret := bt_conn_get_dst_ret env_all_ok;
     bt_addr_le_to_str_out := bt_addr_le_to_str_out env_all_ok;
     bt_hci_err_to_str_ret := bt_hci_err_to_str_ret env_all_ok;
     bt_conn_get_info_ret := bt_conn_get_info_ret env_all_ok;
     dk_leds_init_ret := fun _ => 0;
     bt_enable_ret := fun _ => 0;
     bt_le_ext_adv_create_ret := fun _ param old =>
       match interval_min param with
       | BT_GAP_ADV_SLOW_INT_MIN => (-12, old)
       | _ => (0, 1)
       end;
     bt_le_ext_adv_set_data_ret := fun _ _ _ _ => 0;
     bt_le_ext_adv_start_ret := fun _ _ => 0 |}.

(** The same host, but the connection-info query fails with -ENOTCONN
    (-128). *)
Definition env_get_info_fails : Env :=
  {| CONFIG_ASSERT := true;
     bt_conn_get_dst_ret := bt_conn_get_dst_ret env_all_ok;
     bt_addr_le_to_str_out := bt_addr_le_to_str_out env_all_ok;
     bt_hci_err_to_str_ret := bt_hci_err_to_str_ret env_all_ok;
     bt_conn_get_info_ret := fun _ _ => (-128, mk_phy_info 0 0);
     dk_leds_init_ret := fun _ => 0;
     bt_enable_ret := fun _ => 0;
     bt_le_ext_adv_create_ret := bt_le_ext_adv_create_ret env_all_ok;
     bt_le_ext_adv_set_data_ret := fun _ _ _ _ => 0;
     bt_le_ext_adv_start_ret := fun _ _ => 0 |}.

(** ** The ways create_advertising_coded and main can end *)

(** The two parameter sets of create_advertising_coded. *)
Definition param_conn : bt_le_adv_param :=
  BT_LE_ADV_PARAM_INIT
    [BT_LE_ADV_OPT_CONN; BT_LE_ADV_OPT_EXT_ADV; BT_LE_ADV_OPT_CODED;
     BT_LE_ADV_OPT_REQUIRE_S8_CODING]
    BT_GAP_ADV_FAST_INT_MIN_2 BT_GAP_ADV_FAST_INT_MAX_2.
Definition param_large : bt_le_adv_param :=
  BT_LE_ADV_PARAM_INIT
    [BT_LE_ADV_OPT_EXT_ADV; BT_LE_ADV_OPT_CODED; BT_LE_ADV_OPT_REQUIRE_S8_CODING]
    BT_GAP_ADV_SLOW_INT_MIN BT_GAP_ADV_SLOW_INT_MAX.

(** Where create_advertising_coded returns, with what the host answered
    up to there: [a1] and [a3] are what the host left in [adv_conn] and
    [adv_large], the [e]s are the failing codes. *)
Inductive create_end :=
| end_create_conn (e1 a1 : Z)
| end_set_conn (a1 e2 : Z)
| end_create_large (a1 e3 a3 : Z)
| end_set_large (a1 a3 e4 : Z)
| end_created (a1 a3 : Z).

Definition create_end_result (c : create_end) : Z :=
  match c with
  | end_create_conn e1 _ => e1
  | end_set_conn _ e2 => e2
  | end_create_large _ e3 _ => e3
  | end_set_large _ _ e4 => e4
  | end_created _ _ => 0
  end.

Definition conn_set_up (a1 e2 : Z) : list Event :=
  [ev_bt_le_ext_adv_create param_conn 0 a1;
   ev_printk ("Created connectable adv: %p" +:+ LF) [arg_ptr a1];
   ev_bt_le_ext_adv_set_data a1 ad_conn 3 e2].

Definition large_set_up (a3 e4 : Z) : list Event :=
  [ev_bt_le_ext_adv_create param_large 0 a3;
   ev_printk ("Created large adv: %p" +:+ LF) [arg_ptr a3];
   ev_bt_le_ext_adv_set_data a3 ad_large_array 7 e4].

Definition create_end_trace (c : create_end) : list Event :=
  match c with
  | end_create_conn e1 a1 =>
      [ev_bt_le_ext_adv_create param_conn e1 a1;
       ev_printk ("Failed to create connectable advertiser (err %d)" +:+ LF)
                 [arg_int e1]]
  | end_set_conn a1 e2 =>
      conn_set_up a1 e2
      ++ [ev_printk ("Failed to set connectable adv data (err %d)" +:+ LF)
                    [arg_int e2]]
  | end_create_large a1 e3 a3 =>
      conn_set_up a1 0
      ++ [ev_bt_le_ext_adv_create param_large e3 a3;
          ev_printk ("Failed to create large advertiser (err %d)" +:+ LF)
                    [arg_int e3]]
  | end_set_large a1 a3 e4 =>
      conn_set_up a1 0 ++ large_set_up a3 e4
      ++ [ev_printk ("Failed to set large adv data (err %d)" +:+ LF) [arg_int e4]]
  | end_created a1 a3 => conn_set_up a1 0 ++ large_set_up a3 0
  end.

(** The statics at that point; the history is set separately. *)
Definition create_end_statics (c : create_end) (w : World) : World :=
  match c with
  | end_create_conn _ a1 => set_adv_conn a1 w
  | end_set_conn a1 _ => set_adv_conn a1 w
  | end_create_large a1 _ a3 => set_adv_large a3 (set_adv_conn a1 w)
  | end_set_large a1 a3 _ => built_world (set_adv_large a3 (set_adv_conn a1 w))
  | end_created a1 a3 => built_world (set_adv_large a3 (set_adv_conn a1 w))
  end.

(** The code that ended the run is not 0, unless the run got through. *)
Definition create_end_ok (c : create_end) : Prop :=
  match c with
  | end_created _ _ => True
  | _ => create_end_result c <> 0
  end.

(** One round of main's loop with the LED value [v], and the [n] rounds
    that follow a counter value [s]. *)
Definition status_round (v : Z) : list Event :=
  [ev_dk_set_led RUN_STATUS_LED v; ev_k_sleep (K_MSEC RUN_LED_BLINK_INTERVAL)].
Definition status_rounds (s : Z) (n : nat) : list Event :=
  List.flat_map (fun k => status_round ((s + Z.of_nat k) mod 2)) (seq 1 n).

(** Where main is after its startup sequence. *)
Inductive main_end :=
| end_leds (e : Z)
| end_enable (e : Z)
| end_create (c : create_end)
| end_running (a1 a3 : Z).

Definition main_end_result (m : main_end) : option Z :=
  match m with
  | end_running _ _ => None
  | _ => Some 0
  end.

Definition main_start : list Event :=
  [ev_printk ("Starting Bluetooth Peripheral HR coded sample" +:+ LF) []].
Definition main_enabled : list Event :=
  main_start
  ++ [ev_dk_leds_init 0; ev_bt_enable 0; ev_printk ("Bluetooth initialized" +:+ LF) []].

Definition main_end_trace (rounds : nat) (m : main_end) : list Event :=
  match m with
  | end_leds e =>
      main_start
      ++ [ev_dk_leds_init e; ev_printk ("LEDs init failed (err %d)" +:+ LF) [arg_int e]]
  | end_enable e =>
      main_start
      ++ [ev_dk_leds_init 0; ev_bt_enable e;
          ev_printk ("Bluetooth init failed (err %d)" +:+ LF) [arg_int e]]
  | end_create c =>
      main_enabled ++ create_end_trace c
      ++ [ev_printk ("Advertising failed to create (err %d)" +:+ LF)
                    [arg_int (create_end_result c)]]
  | end_running a1 a3 =>
      main_enabled ++ create_end_trace (end_created a1 a3)
      ++ [ev_k_work_submit start_advertising_worker;
          ev_k_work_schedule notify_work K_NO_WAIT]
      ++ status_rounds 0 rounds
  end.

Definition main_end_statics (m : main_end) (w : World) : World :=
  match m with
  | end_leds _ | end_enable _ => w
  | end_create c => create_end_statics c w
  | end_running a1 a3 => create_end_statics (end_created a1 a3) w
  end.

Definition main_end_ok (m : main_end) : Prop :=
  match m with
  | end_leds e | end_enable e => e <> 0
  | end_create c => create_end_result c <> 0
  | end_running _ _ => True
  end.

(** ** More ways to read a trace *)

Definition is_printk (e : Event) : bool :=
  match e with
  | ev_printk _ _ => true
  | _ => false
  end.

(** The call that hands [ad_large] to the host. *)
Definition is_large_set_data (e : Event) : bool :=
  match e with
  | ev_bt_le_ext_adv_set_data _ ad_large_array _ _ => true
  | _ => false
  end.

(** The handles the host handed out, and the handles asked to start, in
    the order of the calls. *)
Definition created_handles (t : list Event) : list Z :=
  omap (fun e => match e with
                 | ev_bt_le_ext_adv_create _ _ adv => Some adv
                 | _ => None
                 end) t.
Definition started_handles (t : list Event) : list Z :=
  omap (fun e => match e with
                 | ev_bt_le_ext_adv_start adv _ => Some adv
                 | _ => None
                 end) t.

(** The calls of one firing of notify_work_handler from heart rate [h] and
    battery level [b], and of [n] firings in a row. *)
Definition handler_round (work : work_item) (h b : Z) : list Event :=
  ev_bt_hrs_notify (hr_next h)
    :: bas_round b (bas_next b)
    ++ [ev_k_work_reschedule work (K_MSEC NOTIFY_INTERVAL)].

Fixpoint handler_rounds (work : work_item) (h b : Z) (n : nat) : list Event :=
  match n with
  | O => []
  | S n' => handler_round work h b ++ handler_rounds work (hr_next h) (bas_next b) n'
  end.

(** The host of [env_all_ok] in a build without CONFIG_ASSERT. *)
Definition env_no_assert : Env :=
  {| CONFIG_ASSERT := false;
     bt_conn_get_dst_ret := bt_conn_get_dst_ret env_all_ok;
     bt_addr_le_to_str_out := bt_addr_le_to_str_out env_all_ok;
     bt_hci_err_to_str_ret := bt_hci_err_to_str_ret env_all_ok;
     bt_conn_get_info_ret := bt_conn_get_info_ret env_all_ok;
     dk_leds_init_ret := dk_leds_init_ret env_all_ok;
     bt_enable_ret := bt_enable_ret env_all_ok;
     bt_le_ext_adv_create_ret := bt_le_ext_adv_create_ret env_all_ok;
     bt_le_ext_adv_set_data_ret := bt_le_ext_adv_set_data_ret env_all_ok;
     bt_le_ext_adv_start_ret := bt_le_ext_adv_start_ret env_all_ok |}.

(** ** Reasoning about runs *)

Lemma bind_Ok {A B} (m : M A) (f : A -> M B) w a w' :
  m w = Ok a w' -> (m ≫= f) w = f a w'.
Proof. intros H. unfold mbind, M_bind. now rewrite H. Qed.

Lemma bind_Stop {A B} (m : M A) (f : A -> M B) w r w' :
  m w = Stop r w' -> (m ≫= f) w = Stop r w'.
Proof. intros H. unfold mbind, M_bind. now rewrite H. Qed.

Lemma set_adv_mfg_full_twice a b w :
  set_adv_mfg_full a (set_adv_mfg_full b w) = set_adv_mfg_full a w.
Proof. reflexivity. Qed.

Lemma set_adv_mfg_last_twice a b w :
  set_adv_mfg_last a (set_adv_mfg_last b w) = set_adv_mfg_last a w.
Proof. reflexivity. Qed.

Lemma set_adv_mfg_full_same w : set_adv_mfg_full (adv_mfg_full w) w = w.
Proof. now destruct w. Qed.

Lemma set_adv_mfg_last_same w : set_adv_mfg_last (adv_mfg_last w) w = w.
Proof. now destruct w. Qed.

(** *** Single stores *)

Lemma store_byte_last_ok j v w :
  (Z.to_nat j < length (adv_mfg_last w))%nat -> 0 <= j ->
  store_byte adv_mfg_last_buf j v w
  = Ok tt (set_adv_mfg_last (<[Z.to_nat j := to_uint8 v]> (adv_mfg_last w)) w).
Proof.
  intros Hlt Hj. unfold store_byte, in_bounds.
  erewrite bind_Ok by reflexivity.
  replace ((0 <=? j) && (j <? Z.of_nat (length (adv_mfg_last w)))) with true.
  - reflexivity.
  - symmetry. apply andb_true_iff. split; [apply Z.leb_le | apply Z.ltb_lt]; lia.
Qed.

Lemma store_byte_full_ok i j v row w :
  0 <= i -> adv_mfg_full w !! Z.to_nat i = Some row ->
  (Z.to_nat j < length row)%nat -> 0 <= j ->
  store_byte (adv_mfg_full_row i) j v w
  = Ok tt (set_adv_mfg_full
             (<[Z.to_nat i := <[Z.to_nat j := to_uint8 v]> row]> (adv_mfg_full w)) w).
Proof.
  intros Hi Hrow Hlt Hj. unfold store_byte, in_bounds.
  erewrite bind_Ok by reflexivity. rewrite Hrow.
  replace ((0 <=? i) && ((0 <=? j) && (j <? Z.of_nat (length row)))) with true.
  - reflexivity.
  - symmetry. rewrite !andb_true_iff.
    repeat split; [apply Z.leb_le | apply Z.leb_le | apply Z.ltb_lt]; lia.
Qed.

Lemma store_ad_large_ok i f e w :
  0 <= i -> ad_large w !! Z.to_nat i = Some e ->
  store_ad_large i f w
  = Ok tt (set_ad_large (<[Z.to_nat i := f e]> (ad_large w)) w).
Proof.
  intros Hi He. unfold store_ad_large.
  erewrite bind_Ok by reflexivity. rewrite He.
  replace (0 <=? i) with true; [reflexivity |].
  symmetry. apply Z.leb_le. lia.
Qed.

(** *** The fill loops *)

Lemma fill_list_cons n : forall j c x l,
  fill_list n (S j) c (x :: l) = x :: fill_list n j c l.
Proof. induction n as [|n IH]; intros; simpl; [reflexivity | apply IH]. Qed.

Lemma fill_list_all c : forall l,
  fill_list (length l) 0 c l = replicate (length l) c.
Proof.
  induction l as [|x l IH]; simpl; [reflexivity |].
  rewrite fill_list_cons. now rewrite IH.
Qed.

Lemma fill_list_after_id n a b c l :
  length l = S (S n) ->
  fill_list n 2 c (<[1%nat := b]> (<[0%nat := a]> l)) = a :: b :: replicate n c.
Proof.
  destruct l as [|x [|y l]]; simpl; try discriminate.
  intros Hlen. injection Hlen as Hlen. subst n.
  rewrite !fill_list_cons. now rewrite fill_list_all.
Qed.

Lemma fill_last_loop c n : forall j w,
  0 <= j -> (Z.to_nat j + n <= length (adv_mfg_last w))%nat ->
  for_count n j (fun j => store_byte adv_mfg_last_buf j c) w
  = Ok tt (set_adv_mfg_last
             (fill_list n (Z.to_nat j) (to_uint8 c) (adv_mfg_last w)) w).
Proof.
  induction n as [|n IH]; intros j w Hj Hlen; simpl.
  - now rewrite set_adv_mfg_last_same.
  - erewrite bind_Ok by (apply store_byte_last_ok; lia).
    rewrite IH; [| lia | simpl; rewrite length_insert; lia].
    simpl. now replace (Z.to_nat (j + 1)) with (S (Z.to_nat j)) by lia.
Qed.

Lemma fill_full_loop i c n : forall j row w,
  0 <= i -> adv_mfg_full w !! Z.to_nat i = Some row ->
  0 <= j -> (Z.to_nat j + n <= length row)%nat ->
  for_count n j (fun j => store_byte (adv_mfg_full_row i) j c) w
  = Ok tt (set_adv_mfg_full
             (<[Z.to_nat i := fill_list n (Z.to_nat j) (to_uint8 c) row]>
                (adv_mfg_full w)) w).
Proof.
  induction n as [|n IH]; intros j row w Hi Hrow Hj Hlen; simpl.
  - rewrite list_insert_id by assumption. now rewrite set_adv_mfg_full_same.
  - erewrite bind_Ok by (apply store_byte_full_ok; [lia | eassumption | lia | lia]).
    erewrite IH; [| lia | | lia |].
    + simpl. rewrite list_insert_insert_eq.
      now replace (Z.to_nat (j + 1)) with (S (Z.to_nat j)) by lia.
    + simpl. apply list_lookup_insert_eq. eapply lookup_lt_Some; eassumption.
    + rewrite length_insert. lia.
Qed.

(** *** One round of the first loop *)

Lemma full_entry_body_run i row e w :
  0 <= i < 255 ->
  adv_mfg_full w !! Z.to_nat i = Some row ->
  length row = Z.to_nat MFG_DATA_BYTES_PER_FULL_ENTRY ->
  ad_large w !! Z.to_nat i = Some e ->
  full_entry_body i w
  = Ok tt (set_ad_large (<[Z.to_nat i := full_entry i]> (ad_large w))
             (set_adv_mfg_full (<[Z.to_nat i := full_row_bytes i]> (adv_mfg_full w)) w)).
Proof.
  intros Hi Hrow Hlen He.
  assert (Hl : (Z.to_nat i < length (adv_mfg_full w))%nat)
    by (eapply lookup_lt_Some; eassumption).
  assert (Hlen' : length row = 254%nat) by exact Hlen.
  unfold full_entry_body, for_range.
  erewrite bind_Ok
    by (eapply store_byte_full_ok; [lia | eassumption | lia | lia]).
  erewrite bind_Ok;
    [| eapply store_byte_full_ok;
       [lia | apply list_lookup_insert_eq, Hl | rewrite length_insert; lia | lia]].
  cbn [adv_mfg_full set_adv_mfg_full]. rewrite list_insert_insert_eq.
  rewrite set_adv_mfg_full_twice.
  erewrite bind_Ok;
    [| eapply fill_full_loop;
       [lia | apply list_lookup_insert_eq, Hl | lia
        | rewrite !length_insert, Hlen'; vm_compute; lia]].
  cbn [adv_mfg_full set_adv_mfg_full]. rewrite list_insert_insert_eq.
  rewrite set_adv_mfg_full_twice.
  change (Z.to_nat 0) with 0%nat. change (Z.to_nat 1) with 1%nat.
  change (Z.to_nat 2) with 2%nat.
  rewrite (fill_list_after_id _ _ _ _ row)
    by (rewrite Hlen'; reflexivity).
  erewrite bind_Ok by (eapply store_ad_large_ok; [lia | eassumption]).
  assert (Ha : (Z.to_nat i < length (ad_large w))%nat)
    by (eapply lookup_lt_Some; eassumption).
  erewrite bind_Ok;
    [| eapply store_ad_large_ok; [lia | apply list_lookup_insert_eq, Ha]].
  cbn [ad_large set_ad_large]. rewrite list_insert_insert_eq.
  erewrite store_ad_large_ok; [| lia | apply list_lookup_insert_eq, Ha].
  cbn [ad_large set_ad_large]. rewrite list_insert_insert_eq.
  unfold full_row_bytes, full_entry, to_uint8.
  rewrite (Z.mod_small MFG_COMPANY_ID_LSB) by (vm_compute; split; congruence).
  rewrite (Z.mod_small MFG_COMPANY_ID_MSB) by (vm_compute; split; congruence).
  rewrite !(Z.mod_small (i + 1)) by lia.
  reflexivity.
Qed.

(** *** The whole function *)

Lemma build_large_adv_payload_run w :
  buffers_as_declared w = true ->
  build_large_adv_payload w = Ok tt (built_world w).
Proof.
  destruct w as [h c l full last ad b t].
  unfold buffers_as_declared. cbn [adv_mfg_full adv_mfg_last ad_large].
  rewrite !andb_true_iff, !Nat.eqb_eq.
  intros [[[Hfull Hrows] Hlast] Had].
  change (Z.to_nat FULL_ENTRY_COUNT) with 6%nat in Hfull.
  change (Z.to_nat (FULL_ENTRY_COUNT + 1)) with 7%nat in Had.
  destruct full as [|r0 [|r1 [|r2 [|r3 [|r4 [|r5 [|]]]]]]]; try discriminate Hfull.
  destruct ad as [|e0 [|e1 [|e2 [|e3 [|e4 [|e5 [|e6 [|]]]]]]]]; try discriminate Had.
  cbn [forallb] in Hrows. rewrite !andb_true_iff, !Nat.eqb_eq in Hrows.
  destruct Hrows as (H0 & H1 & H2 & H3 & H4 & H5 & _).
  change build_large_adv_payload with
    (for_range 0 FULL_ENTRY_COUNT full_entry_body;;
     store_byte adv_mfg_last_buf 0 MFG_COMPANY_ID_LSB;;
     store_byte adv_mfg_last_buf 1 MFG_COMPANY_ID_MSB;;
     for_range 2 LAST_ENTRY_DATA_LEN (fun j => store_byte adv_mfg_last_buf j 0xEE);;
     store_ad_large FULL_ENTRY_COUNT (set_type MFG_AD_TYPE);;
     store_ad_large FULL_ENTRY_COUNT (set_data_len LAST_ENTRY_DATA_LEN);;
     store_ad_large FULL_ENTRY_COUNT (set_data adv_mfg_last_buf)).
  unfold for_range.
  change (Z.to_nat (FULL_ENTRY_COUNT - 0)) with 6%nat.
  erewrite bind_Ok.
  2:{ cbn [for_count].
      do 6 (erewrite bind_Ok;
            [| eapply full_entry_body_run;
               [lia | reflexivity | eassumption | reflexivity]]).
      reflexivity. }
  erewrite bind_Ok
    by (apply store_byte_last_ok; [cbn [adv_mfg_last set_ad_large set_adv_mfg_full];
                                   rewrite Hlast; vm_compute; lia | lia]).
  erewrite bind_Ok
    by (apply store_byte_last_ok;
        [cbn [adv_mfg_last set_ad_large set_adv_mfg_full set_adv_mfg_last];
         rewrite length_insert, Hlast; vm_compute; lia | lia]).
  erewrite bind_Ok
    by (apply fill_last_loop;
        [lia | cbn [adv_mfg_last set_ad_large set_adv_mfg_full set_adv_mfg_last];
               rewrite !length_insert, Hlast; vm_compute; lia]).
  cbn [adv_mfg_last set_ad_large set_adv_mfg_full set_adv_mfg_last].
  change (Z.to_nat 0) with 0%nat. change (Z.to_nat 1) with 1%nat.
  change (Z.to_nat 2) with 2%nat.
  rewrite (fill_list_after_id _ _ _ _ last) by (rewrite Hlast; reflexivity).
  erewrite bind_Ok by (eapply store_ad_large_ok; [vm_compute; congruence | reflexivity]).
  erewrite bind_Ok by (eapply store_ad_large_ok; [vm_compute; congruence | reflexivity]).
  erewrite store_ad_large_ok; [| vm_compute; congruence | reflexivity].
  reflexivity.
Qed.

(** *** The counters *)

Lemma hrs_notify_run w :
  hrs_notify w
  = Ok tt (set_trace (trace w ++ [ev_bt_hrs_notify (hr_next (heartrate w))])
             (set_heartrate (hr_next (heartrate w)) w)).
Proof.
  destruct w as [h c l full last ad b t].
  unfold hrs_notify, hr_next, mbind, M_bind, gets, modify; cbn.
  destruct (to_uint8 (h + 1) =? 160); reflexivity.
Qed.

Lemma hr_next_range h : 100 <= h <= 159 -> 100 <= hr_next h <= 159.
Proof.
  intros Hh. unfold hr_next, to_uint8. rewrite Z.mod_small by lia.
  destruct (Z.eqb_spec (h + 1) 160); lia.
Qed.

Lemma hr_next_increment_then_wrap h :
  100 <= h <= 159 -> hr_next h = increment_then_wrap h.
Proof.
  intros Hh. unfold hr_next, increment_then_wrap, to_uint8.
  now rewrite Z.mod_small by lia.
Qed.

Lemma hr_next_mod j : hr_next (100 + j mod 60) = 100 + (j + 1) mod 60.
Proof.
  pose proof (Z.mod_pos_bound j 60 ltac:(lia)) as Hr.
  rewrite <- (Zplus_mod_idemp_l j 1 60).
  unfold hr_next, to_uint8. rewrite (Z.mod_small (100 + j mod 60 + 1) 256) by lia.
  destruct (Z.eqb_spec (100 + j mod 60 + 1) 160) as [E|E].
  - replace (j mod 60 + 1) with 60 by lia. now rewrite Z_mod_same_full.
  - rewrite (Z.mod_small (j mod 60 + 1)) by lia. lia.
Qed.

Lemma hr_seq_length n : forall h, length (hr_seq h n) = n.
Proof. induction n as [|n IH]; intros h; simpl; [reflexivity | now rewrite IH]. Qed.

Lemma hr_seq_range n : forall h,
  100 <= h <= 159 -> Forall (fun v => 100 <= v <= 159) (hr_seq h n).
Proof.
  induction n as [|n IH]; intros h Hh; simpl; constructor.
  - now apply hr_next_range.
  - now apply IH, hr_next_range.
Qed.

Lemma hr_seq_lookup_iter n : forall h i,
  (i < n)%nat -> hr_seq h n !! i = Some (Nat.iter (S i) hr_next h).
Proof.
  induction n as [|n IH]; intros h i Hi; [lia |].
  destruct i as [|i]; simpl; [reflexivity |].
  rewrite IH by lia. f_equal. simpl. now rewrite <- !Nat.iter_succ_r.
Qed.

Lemma hr_seq_lookup_mod n : forall j i,
  (i < n)%nat ->
  hr_seq (100 + j mod 60) n !! i = Some (100 + (j + Z.of_nat (S i)) mod 60).
Proof.
  induction n as [|n IH]; intros j i Hi; [lia |].
  destruct i as [|i]; simpl hr_seq; rewrite hr_next_mod.
  - reflexivity.
  - change ((?x :: ?l) !! S i) with (l !! i).
    rewrite IH by lia. do 3 f_equal. lia.
Qed.

Lemma iter_increment_then_wrap_range k :
  100 <= Nat.iter k increment_then_wrap 100 <= 159
  /\ Nat.iter k hr_next 100 = Nat.iter k increment_then_wrap 100.
Proof.
  induction k as [|k [IHr IHe]]; simpl; [lia |].
  rewrite IHe. rewrite hr_next_increment_then_wrap by assumption.
  split; [| reflexivity].
  set (x := Nat.iter k increment_then_wrap 100) in *.
  unfold increment_then_wrap.
  destruct (Z.eqb_spec (x + 1) 160); lia.
Qed.

Lemma hrs_notify_runs n : forall w,
  repeat_run n hrs_notify w
  = Ok tt (set_trace (trace w ++ (ev_bt_hrs_notify <$> hr_seq (heartrate w) n))
             (set_heartrate (Nat.iter n hr_next (heartrate w)) w)).
Proof.
  induction n as [|n IH]; intros w.
  - destruct w; cbn. now rewrite app_nil_r.
  - cbn [repeat_run]. erewrite bind_Ok by apply hrs_notify_run.
    rewrite IH. rewrite Nat.iter_succ_r.
    destruct w; cbn. now rewrite <- app_assoc.
Qed.

Lemma bas_next_range b : 1 <= b <= 100 -> 1 <= bas_next b <= 100.
Proof.
  intros Hb. unfold bas_next, to_uint8.
  rewrite (Z.mod_small b) by lia. rewrite Z.mod_small by lia.
  destruct (Z.eqb_spec (b - 1) 0); lia.
Qed.

Lemma bas_next_decrement_then_wrap b :
  1 <= b <= 100 -> bas_next b = decrement_then_wrap b.
Proof.
  intros Hb. unfold bas_next, decrement_then_wrap, to_uint8.
  rewrite (Z.mod_small b) by lia. now rewrite Z.mod_small by lia.
Qed.

Lemma bas_notify_run env w :
  1 <= bas_battery_level w <= 100 ->
  bas_notify env w
  = Ok tt (set_trace
             (trace w ++ bas_round (bas_battery_level w) (bas_next (bas_battery_level w)))
             (set_bas_battery_level (bas_next (bas_battery_level w)) w)).
Proof.
  intros Hb. destruct w as [h c l full last ad b t]. cbn in Hb.
  unfold bas_notify, bt_bas_get_battery_level, bt_bas_set_battery_level,
    __ASSERT_NO_MSG, emit, bas_round, bas_next, mbind, M_bind, gets, modify; cbn.
  replace (to_uint8 b >? 0) with true.
  - rewrite andb_false_r. cbn. now rewrite <- app_assoc.
  - symmetry. unfold to_uint8. rewrite Z.mod_small by lia. apply Z.gtb_lt. lia.
Qed.

Lemma iter_decrement_then_wrap_range b k :
  1 <= b <= 100 ->
  1 <= Nat.iter k decrement_then_wrap b <= 100
  /\ Nat.iter k bas_next b = Nat.iter k decrement_then_wrap b.
Proof.
  intros Hb. induction k as [|k [IHr IHe]]; simpl; [lia |].
  rewrite IHe. rewrite bas_next_decrement_then_wrap by assumption.
  split; [| reflexivity].
  set (x := Nat.iter k decrement_then_wrap b) in *.
  unfold decrement_then_wrap.
  destruct (Z.eqb_spec (x - 1) 0); lia.
Qed.

Lemma bas_levels_set_rounds n : forall b,
  bas_levels_set (bas_rounds b n) = bas_seq b n.
Proof.
  induction n as [|n IH]; intros b; [reflexivity |].
  cbn. f_equal. apply IH.
Qed.

Lemma bas_seq_length n : forall b, length (bas_seq b n) = n.
Proof. induction n as [|n IH]; intros b; simpl; [reflexivity | now rewrite IH]. Qed.

Lemma bas_seq_range n : forall b,
  1 <= b <= 100 -> Forall (fun v => 1 <= v <= 100) (bas_seq b n).
Proof.
  induction n as [|n IH]; intros b Hb; simpl; constructor.
  - now apply bas_next_range.
  - now apply IH, bas_next_range.
Qed.

Lemma bas_seq_lookup_iter n : forall b i,
  (i < n)%nat -> bas_seq b n !! i = Some (Nat.iter (S i) bas_next b).
Proof.
  induction n as [|n IH]; intros b i Hi; [lia |].
  destruct i as [|i]; simpl; [reflexivity |].
  rewrite IH by lia. f_equal. simpl. now rewrite <- !Nat.iter_succ_r.
Qed.

Lemma bas_notify_runs env n : forall w,
  1 <= bas_battery_level w <= 100 ->
  repeat_run n (bas_notify env) w
  = Ok tt (set_trace (trace w ++ bas_rounds (bas_battery_level w) n)
             (set_bas_battery_level (Nat.iter n bas_next (bas_battery_level w)) w)).
Proof.
  induction n as [|n IH]; intros w Hb.
  - destruct w; cbn. now rewrite app_nil_r.
  - cbn [repeat_run]. erewrite bind_Ok by now apply bas_notify_run.
    rewrite IH by (cbn; now apply bas_next_range).
    rewrite Nat.iter_succ_r.
    destruct w; cbn. now rewrite <- !app_assoc.
Qed.

(** *** Traces with one failure *)

Lemma logs_code_result_ok err e : logs_code err e -> result_ok e.
Proof. intros [fmt ->] x Hx. discriminate Hx. Qed.

Lemma first_failure_unique pre : forall e tail pre' e' post' err,
  Forall result_ok pre -> Forall result_ok tail ->
  pre ++ e :: tail = pre' ++ e' :: post' ->
  startup_call_result e' = Some err -> err <> 0 ->
  pre' = pre /\ e' = e /\ post' = tail.
Proof.
  induction pre as [|x pre IH]; intros e tail pre' e' post' err Hpre Htail Heq He' Herr.
  - destruct pre' as [|y pre']; cbn in Heq.
    + now injection Heq as <- <-.
    + injection Heq as <- ->. exfalso. apply Herr.
      rewrite Forall_app, Forall_cons in Htail.
      destruct Htail as (_ & Hok & _). now apply Hok.
  - inversion Hpre as [|? ? Hx Hpre']; subst.
    destruct pre' as [|y pre']; cbn in Heq.
    + injection Heq as <- _. exfalso. apply Herr. now apply Hx.
    + injection Heq as <- Heq.
      destruct (IH _ _ _ _ _ _ Hpre' Htail Heq He' Herr) as (-> & -> & ->).
      now repeat split.
Qed.

Lemma stopped_at_failure_split new err tail :
  stopped_at_failure new err tail -> Forall (logs_code err) tail ->
  forall pre' e' post' err',
    new = pre' ++ e' :: post' -> startup_call_result e' = Some err' -> err' <> 0 ->
    err' = err /\ post' = tail /\ Forall result_ok pre'.
Proof.
  intros (pre & e & -> & Hpre & He & Herr) Htail pre' e' post' err' Heq He' Herr'.
  destruct (first_failure_unique pre e tail pre' e' post' err') as (-> & -> & ->);
    try assumption.
  - eapply Forall_impl; [exact Htail |]. intros x. apply logs_code_result_ok.
  - split; [congruence |]. split; [reflexivity | assumption].
Qed.

Lemma no_failure_split new :
  Forall result_ok new ->
  forall pre e post err,
    new = pre ++ e :: post -> startup_call_result e = Some err -> err <> 0 -> False.
Proof.
  intros Hok pre e post err -> He Herr.
  rewrite Forall_app, Forall_cons in Hok. destruct Hok as (_ & Hok & _).
  now apply Herr, Hok.
Qed.

Lemma c_true_false z : c_true z = false -> z = 0.
Proof. unfold c_true. destruct (Z.eqb_spec z 0); [trivial | discriminate]. Qed.

Lemma c_true_true z : c_true z = true -> z <> 0.
Proof. unfold c_true. destruct (Z.eqb_spec z 0); [discriminate | trivial]. Qed.

Ltac unfold_calls :=
  unfold bt_le_ext_adv_create, bt_le_ext_adv_set_data, bt_le_ext_adv_start,
    dk_leds_init, bt_enable, bt_conn_get_dst, bt_addr_le_to_str, bt_hci_err_to_str,
    bt_conn_get_info, dk_set_led_on, dk_set_led_off, dk_set_led, k_work_submit,
    k_work_schedule, k_work_reschedule, k_sleep, bt_hrs_notify,
    printk, emit, call, gets, modify, mbind, M_bind, mret, M_ret,
    set_trace, set_adv_conn, set_adv_large.

(** All of a list but its last two elements. *)
Ltac but_last_two l :=
  lazymatch l with
  | [_; _] => constr:(@nil Event)
  | ?x :: ?r => let p := but_last_two r in constr:(x :: p)
  end.

Ltac result_ok_list :=
  repeat first
    [ apply Forall_nil_2
    | apply Forall_cons_2;
      [ intros ? [= <-]; solve [reflexivity | auto using c_true_false] | ] ].

Ltac failure_leaf :=
  eexists _, _, _; split; [reflexivity |]; cbn [trace];
  split; [rewrite <- !app_assoc; cbn [app]; reflexivity |];
  split; [repeat constructor |];
  right; eexists;
  lazymatch goal with
  | |- stopped_at_failure ?l _ _ =>
      let p := but_last_two l in
      exists p; eexists; split; [reflexivity |];
      split; [result_ok_list |];
      split; [reflexivity | auto using c_true_true]
  end.

Lemma create_advertising_coded_run env w :
  buffers_as_declared w = true ->
  exists res w' new,
    create_advertising_coded env w = Ok res w' /\ trace w' = trace w ++ new
    /\ Forall (fun e => requests_advertising e = false) new
    /\ ((res = 0 /\ Forall result_ok new)
        \/ exists fmt, stopped_at_failure new res [ev_printk fmt [arg_int res]]).
Proof.
  intros Hwf. destruct w as [h c l full last ad b t].
  unfold create_advertising_coded. unfold_calls.
  cbn -[build_large_adv_payload].
  destruct (bt_le_ext_adv_create_ret env _ _ _) as [e1 a1].
  cbn -[build_large_adv_payload].
  destruct (c_true e1) eqn:C1; cbn -[build_large_adv_payload].
  { failure_leaf. }
  match goal with
  | |- context [bt_le_ext_adv_set_data_ret ?a ?b ?c ?d ?e] =>
      set (e2 := bt_le_ext_adv_set_data_ret a b c d e)
  end.
  destruct (c_true e2) eqn:C2; cbn -[build_large_adv_payload].
  { failure_leaf. }
  destruct (bt_le_ext_adv_create_ret env _ _ _) as [e3 a3].
  cbn -[build_large_adv_payload].
  destruct (c_true e3) eqn:C3; cbn -[build_large_adv_payload].
  { failure_leaf. }
  rewrite build_large_adv_payload_run by exact Hwf.
  unfold built_world, set_ad_large, set_adv_mfg_last, set_adv_mfg_full.
  cbn [trace adv_large heartrate adv_conn bas_battery_level].
  match goal with
  | |- context [bt_le_ext_adv_set_data_ret ?a ?b ?c ?d ?e] =>
      set (e4 := bt_le_ext_adv_set_data_ret a b c d e)
  end.
  destruct (c_true e4) eqn:C4.
  { failure_leaf. }
  eexists _, _, _; split; [reflexivity |]; cbn [trace].
  split; [rewrite <- !app_assoc; cbn [app]; reflexivity |].
  split; [repeat constructor |].
  left. split; [reflexivity | result_ok_list].
Qed.

Lemma status_loop_run rounds : forall led_status w,
  exists new,
    status_loop rounds led_status w = Ok None (set_trace (trace w ++ new) w)
    /\ Forall result_ok new.
Proof.
  induction rounds as [|n IH]; intros s w.
  - exists []. split; [| constructor].
    destruct w; cbn. now rewrite app_nil_r.
  - cbn [status_loop]. unfold_calls. cbn -[status_loop].
    edestruct IH as (new & -> & Hok). cbn [trace].
    eexists. split.
    + rewrite <- !app_assoc. cbn [app]. reflexivity.
    + result_ok_list. exact Hok.
Qed.

Ltac main_failure_leaf :=
  eexists _, _, _; split; [reflexivity |]; cbn [trace];
  split; [rewrite <- !app_assoc; cbn [app]; reflexivity |];
  right; split; [reflexivity |]; split; [repeat constructor |];
  eexists _, [_]; split;
  [ lazymatch goal with
    | |- stopped_at_failure ?l _ _ =>
        let p := but_last_two l in
        exists p; eexists; split; [reflexivity |];
        split; [result_ok_list |];
        split; [reflexivity | auto using c_true_true]
    end
  | split; [discriminate | repeat constructor; eexists; reflexivity] ].

Lemma main_run env rounds w :
  buffers_as_declared w = true ->
  exists res w' new,
    main env rounds w = Ok res w' /\ trace w' = trace w ++ new
    /\ ((res = None /\ Forall result_ok new)
        \/ (res = Some 0
            /\ Forall (fun e => requests_advertising e = false) new
            /\ exists err tail,
                 stopped_at_failure new err tail
                 /\ tail <> [] /\ Forall (logs_code err) tail)).
Proof.
  intros Hwf. destruct w as [h c l full last ad b t].
  unfold main. unfold_calls. cbn -[create_advertising_coded status_loop].
  match goal with
  | |- context [dk_leds_init_ret ?a ?b] => set (e1 := dk_leds_init_ret a b)
  end.
  destruct (c_true e1) eqn:C1; cbn -[create_advertising_coded status_loop].
  { main_failure_leaf. }
  match goal with
  | |- context [bt_enable_ret ?a ?b] => set (e2 := bt_enable_ret a b)
  end.
  destruct (c_true e2) eqn:C2; cbn -[create_advertising_coded status_loop].
  { main_failure_leaf. }
  match goal with
  | |- context [create_advertising_coded env ?w2] =>
      destruct (create_advertising_coded_run env w2 Hwf)
        as (res & w' & new & -> & Htr & Hadv & Hcase)
  end.
  cbn [trace] in Htr.
  destruct (c_true res) eqn:C3.
  - destruct Hcase as [[-> _] | [fmt (pre & e & -> & Hpre & He & Hres)]];
      [discriminate C3 |].
    eexists _, _, _; split; [reflexivity |]; cbn [trace]. rewrite Htr.
    split; [rewrite <- !app_assoc; cbn [app]; reflexivity |].
    right. split; [reflexivity |]. split.
    { repeat (apply Forall_cons_2; [reflexivity |]).
      rewrite Forall_app, !Forall_cons in Hadv.
      destruct Hadv as (Hadv1 & Hadv2 & _).
      apply Forall_app_2; [exact Hadv1 | repeat constructor; exact Hadv2]. }
    exists res, [ev_printk fmt [arg_int res];
                 ev_printk ("Advertising failed to create (err %d)" +:+ LF) [arg_int res]].
    split; [| split; [discriminate | repeat constructor; eexists; reflexivity]].
    exists ([ev_printk ("Starting Bluetooth Peripheral HR coded sample" +:+ LF) [];
             ev_dk_leds_init e1; ev_bt_enable e2;
             ev_printk ("Bluetooth initialized" +:+ LF) []] ++ pre), e.
    split; [reflexivity |].
    split; [| split; assumption].
    apply Forall_app_2; [result_ok_list | exact Hpre].
  - destruct Hcase as [[-> Hok] | [fmt (pre & e & _ & _ & _ & Hres)]];
      [| apply c_true_false in C3; contradiction].
    edestruct (status_loop_run rounds) as (new' & -> & Hok').
    eexists _, _, _; split; [reflexivity |]; cbn [trace]. rewrite Htr.
    split; [rewrite <- !app_assoc; cbn [app]; reflexivity |].
    left. split; [reflexivity |].
    result_ok_list. apply Forall_app_2; [exact Hok |].
    result_ok_list. exact Hok'.
Qed.

(** *** The connection callbacks *)

Lemma connected_error_run phy env conn conn_err w :
  conn_err <> 0 ->
  exists dst addr s,
    connected phy env conn conn_err w
    = Ok tt (set_trace
               (trace w ++
                [ev_bt_conn_get_dst conn dst; ev_bt_addr_le_to_str dst addr;
                 ev_bt_hci_err_to_str conn_err s;
                 ev_printk ("Connection failed, err 0x%02x %s" +:+ LF)
                           [arg_int conn_err; arg_str s]]) w).
Proof.
  intros Herr. destruct w as [h c l full last ad b t].
  unfold connected. unfold_calls. cbn.
  replace (c_true conn_err) with true
    by (unfold c_true; now destruct (Z.eqb_spec conn_err 0)).
  cbn. rewrite <- !app_assoc. cbn [app]. eexists _, _, _. reflexivity.
Qed.

Lemma connected_run phy env conn w :
  exists dst addr err info line,
    connected phy env conn 0 w
    = Ok tt (set_trace
               (trace w ++
                [ev_bt_conn_get_dst conn dst; ev_bt_addr_le_to_str dst addr;
                 ev_bt_conn_get_info conn err info; line;
                 ev_dk_set_led_on CON_STATUS_LED]) w)
    /\ (err, info)
       = bt_conn_get_info_ret env
           (trace w ++ [ev_bt_conn_get_dst conn dst; ev_bt_addr_le_to_str dst addr])
           conn
    /\ (err <> 0 ->
        line = ev_printk ("Failed to get connection info (err %d)" +:+ LF) [arg_int err])
    /\ (err = 0 ->
        line = ev_printk ("Connected: %s, tx_phy %s, rx_phy %s" +:+ LF)
                 [arg_str addr; arg_str (phy_to_str phy (tx_phy info));
                  arg_str (phy_to_str phy (rx_phy info))]).
Proof.
  destruct w as [h c l full last ad b t].
  unfold connected. unfold_calls. cbn.
  match goal with
  | |- context [bt_conn_get_info_ret ?a ?b ?c] =>
      destruct (bt_conn_get_info_ret a b c) as [err info] eqn:E
  end.
  cbn. destruct (c_true err) eqn:C; cbn; rewrite <- !app_assoc; cbn [app].
  - eexists _, _, err, info, _. split; [reflexivity |].
    rewrite <- app_assoc in E. cbn [app] in E. split; [now rewrite E |].
    split; [reflexivity |]. intros ->. discriminate C.
  - eexists _, _, err, info, _. split; [reflexivity |].
    rewrite <- app_assoc in E. cbn [app] in E. split; [now rewrite E |].
    split; [| reflexivity]. intros Hne. apply c_true_false in C. contradiction.
Qed.

Lemma disconnected_run env conn reason w :
  exists s,
    disconnected env conn reason w
    = Ok tt (set_trace
               (trace w ++
                [ev_bt_hci_err_to_str reason s;
                 ev_printk ("Disconnected, reason 0x%02x %s" +:+ LF)
                           [arg_int reason; arg_str s];
                 ev_k_work_submit start_advertising_worker;
                 ev_dk_set_led_off CON_STATUS_LED]) w).
Proof.
  destruct w as [h c l full last ad b t].
  unfold disconnected. unfold_calls. cbn.
  rewrite <- !app_assoc. cbn [app]. eexists. reflexivity.
Qed.

(** * Properties of the sample *)

(** ** The large advertising payload *)

(** C1: on buffers of the declared dimensions, build_large_adv_payload
    returns and leaves exactly 7 AD entries in [ad_large], all of type
    Manufacturer Specific Data; their total sizes (length byte, type byte,
    data) are six times 256 and once 114, which sums to 1650; and the data of
    each entry is the company identifier 0x59, 0x00 followed by one repeated
    fill byte (1 to 6 for the full entries, 0xEE for the last). *)
Theorem large_adv_payload_layout (w : World) :
  buffers_as_declared w = true ->
  exists w',
    build_large_adv_payload w = Ok tt w'
    /\ length (ad_large w') = 7%nat
    /\ Forall (fun e => type e = BT_DATA_MANUFACTURER_DATA) (ad_large w')
    /\ entry_total_bytes <$> ad_large w' = [256; 256; 256; 256; 256; 256; 114]
    /\ payload_total_bytes (ad_large w') = 1650
    /\ entry_bytes w' <$> ad_large w'
       = ((fun fill => 0x59 :: 0x00 :: replicate 252 fill) <$> [1; 2; 3; 4; 5; 6])
         ++ [0x59 :: 0x00 :: replicate 110 0xEE].
Proof.
  intros Hwf. exists (built_world w).
  split; [now apply build_large_adv_payload_run |].
  split; [reflexivity |].
  split; [repeat constructor |].
  split; [reflexivity |].
  split; [reflexivity |].
  vm_compute. reflexivity.
Qed.

Lemma large_adv_payload_layout_witness :
  buffers_as_declared (boot_world 100) = true
  /\ exists w',
       build_large_adv_payload (boot_world 100) = Ok tt w'
       /\ length (ad_large w') = 7%nat
       /\ Forall (fun e => type e = BT_DATA_MANUFACTURER_DATA) (ad_large w')
       /\ entry_total_bytes <$> ad_large w' = [256; 256; 256; 256; 256; 256; 114]
       /\ payload_total_bytes (ad_large w') = 1650
       /\ entry_bytes w' <$> ad_large w'
          = ((fun fill => 0x59 :: 0x00 :: replicate 252 fill) <$> [1; 2; 3; 4; 5; 6])
            ++ [0x59 :: 0x00 :: replicate 110 0xEE].
Proof.
  split; [reflexivity |].
  apply (large_adv_payload_layout (boot_world 100)). reflexivity.
Defined.

(** C4: every AD entry that build_large_adv_payload leaves in [ad_large]
    has a data length above 0 and at most 254, and the BUILD_ASSERT on
    LAST_ENTRY_DATA_LEN > 0 holds for the constants of the file (the last
    entry carries 112 data bytes). *)
Theorem large_adv_payload_entry_lengths (w : World) :
  buffers_as_declared w = true ->
  exists w',
    build_large_adv_payload w = Ok tt w'
    /\ Forall (fun e => 0 < data_len e <= 254) (ad_large w')
    /\ BUILD_ASSERT_last_entry_positive = true
    /\ BUILD_ASSERT_full_entry_sizing = true
    /\ LAST_ENTRY_DATA_LEN = 112.
Proof.
  intros Hwf. exists (built_world w).
  split; [now apply build_large_adv_payload_run |].
  split; [| repeat split].
  cbn [built_world set_ad_large ad_large fmap list_fmap app].
  repeat (apply Forall_cons_2; [vm_compute; split; [reflexivity | discriminate] |]).
  apply Forall_nil_2.
Qed.

Lemma large_adv_payload_entry_lengths_witness :
  buffers_as_declared (boot_world 100) = true
  /\ exists w',
       build_large_adv_payload (boot_world 100) = Ok tt w'
       /\ Forall (fun e => 0 < data_len e <= 254) (ad_large w')
       /\ BUILD_ASSERT_last_entry_positive = true
       /\ BUILD_ASSERT_full_entry_sizing = true
       /\ LAST_ENTRY_DATA_LEN = 112.
Proof.
  split; [reflexivity |].
  apply (large_adv_payload_entry_lengths (boot_world 100)). reflexivity.
Defined.

(** ** The simulated sensor values *)

(** C2: from [heartrate] = 100, any number [n] of hrs_notify in a row
    returns, calls nothing but bt_hrs_notify, [n] times, and every value it
    passes lies in [100,159]; the i-th value is the initial 100 incremented
    i times with 160 replaced by 100 each time it is reached. *)
Theorem hrs_notify_values_in_range (n : nat) (w : World) :
  heartrate w = 100 ->
  exists w' vs,
    repeat_run n hrs_notify w = Ok tt w'
    /\ trace w' = trace w ++ (ev_bt_hrs_notify <$> vs)
    /\ length vs = n
    /\ Forall (fun v => 100 <= v <= 159) vs
    /\ 100 <= heartrate w' <= 159
    /\ forall i, (i < n)%nat ->
         vs !! i = Some (Nat.iter (S i) increment_then_wrap 100).
Proof.
  intros Hh. eexists _, (hr_seq 100 n).
  split; [rewrite hrs_notify_runs, Hh; reflexivity |].
  split; [reflexivity |].
  split; [apply hr_seq_length |].
  split; [apply hr_seq_range; lia |].
  split.
  - cbn. destruct (iter_increment_then_wrap_range n) as [Hr ->]. exact Hr.
  - intros i Hi. rewrite hr_seq_lookup_iter by assumption.
    now destruct (iter_increment_then_wrap_range (S i)) as [_ ->].
Qed.

Lemma hrs_notify_values_in_range_witness :
  heartrate (boot_world 100) = 100
  /\ exists w' vs,
       repeat_run 61 hrs_notify (boot_world 100) = Ok tt w'
       /\ trace w' = trace (boot_world 100) ++ (ev_bt_hrs_notify <$> vs)
       /\ length vs = 61%nat
       /\ Forall (fun v => 100 <= v <= 159) vs
       /\ 100 <= heartrate w' <= 159
       /\ forall i, (i < 61)%nat ->
            vs !! i = Some (Nat.iter (S i) increment_then_wrap 100).
Proof.
  split; [reflexivity |].
  apply (hrs_notify_values_in_range 61 (boot_world 100)). reflexivity.
Defined.

(** C9: hrs_notify increments before it notifies.  From [heartrate] = 100,
    the k-th invocation (k = 1, 2, ...) passes 100 + (k mod 60) to
    bt_hrs_notify: the first passes 101, and 100 is passed exactly by the
    invocations whose number is a multiple of 60. *)
Theorem hrs_notify_nth_value (n : nat) (w : World) :
  heartrate w = 100 ->
  exists w' vs,
    repeat_run n hrs_notify w = Ok tt w'
    /\ trace w' = trace w ++ (ev_bt_hrs_notify <$> vs)
    /\ length vs = n
    /\ (forall k, (1 <= k <= n)%nat ->
          vs !! (k - 1)%nat = Some (100 + Z.of_nat k mod 60))
    /\ ((1 <= n)%nat -> vs !! 0%nat = Some 101)
    /\ (forall k, (1 <= k <= n)%nat ->
          (vs !! (k - 1)%nat = Some 100 <-> (k mod 60 = 0)%nat)).
Proof.
  intros Hh.
  assert (Hk : forall k, (1 <= k <= n)%nat ->
            hr_seq 100 n !! (k - 1)%nat = Some (100 + Z.of_nat k mod 60)).
  { intros k Hk. change 100 with (100 + 0 mod 60) at 1.
    rewrite hr_seq_lookup_mod by lia. do 3 f_equal. lia. }
  eexists _, (hr_seq 100 n).
  split; [rewrite hrs_notify_runs, Hh; reflexivity |].
  split; [reflexivity |].
  split; [apply hr_seq_length |].
  split; [exact Hk |].
  split.
  - intros Hn. apply (Hk 1%nat). lia.
  - intros k Hkn. rewrite Hk by assumption.
    replace (Z.of_nat k mod 60) with (Z.of_nat (k mod 60))
      by (rewrite Nat2Z.inj_mod; reflexivity).
    split.
    + intros E.
      assert (E' : 100 + Z.of_nat (k mod 60) = 100) by congruence.
      lia.
    + intros ->. reflexivity.
Qed.

Lemma hrs_notify_nth_value_witness :
  heartrate (boot_world 100) = 100
  /\ exists w' vs,
       repeat_run 125 hrs_notify (boot_world 100) = Ok tt w'
       /\ trace w' = trace (boot_world 100) ++ (ev_bt_hrs_notify <$> vs)
       /\ length vs = 125%nat
       /\ (forall k, (1 <= k <= 125)%nat ->
             vs !! (k - 1)%nat = Some (100 + Z.of_nat k mod 60))
       /\ ((1 <= 125)%nat -> vs !! 0%nat = Some 101)
       /\ (forall k, (1 <= k <= 125)%nat ->
             (vs !! (k - 1)%nat = Some 100 <-> (k mod 60 = 0)%nat)).
Proof.
  split; [reflexivity |].
  apply (hrs_notify_nth_value 125 (boot_world 100)). reflexivity.
Defined.

(** C3: with the battery service at a level B in [1,100], any number [n]
    of bas_notify in a row returns, and every level it hands to
    bt_bas_set_battery_level lies in [1,100], so 0 is never written; the
    i-th level written is B after i steps of "decrement, and replace a
    result of 0 by 100". *)
Theorem bas_notify_levels_in_range (env : Env) (n : nat) (w : World) :
  1 <= bas_battery_level w <= 100 ->
  exists w' new,
    repeat_run n (bas_notify env) w = Ok tt w'
    /\ trace w' = trace w ++ new
    /\ length (bas_levels_set new) = n
    /\ Forall (fun v => 1 <= v <= 100) (bas_levels_set new)
    /\ (0 ∉ bas_levels_set new)
    /\ 1 <= bas_battery_level w' <= 100
    /\ forall i, (i < n)%nat ->
         bas_levels_set new !! i
         = Some (Nat.iter (S i) decrement_then_wrap (bas_battery_level w)).
Proof.
  intros Hb. eexists _, (bas_rounds (bas_battery_level w) n).
  split; [now apply bas_notify_runs |].
  split; [reflexivity |].
  rewrite bas_levels_set_rounds.
  pose proof (bas_seq_range n _ Hb) as Hrange.
  split; [apply bas_seq_length |].
  split; [exact Hrange |].
  split.
  - intros Hin. rewrite Forall_forall in Hrange. apply Hrange in Hin. lia.
  - split.
    + cbn. destruct (iter_decrement_then_wrap_range _ n Hb) as [Hr ->]. exact Hr.
    + intros i Hi. rewrite bas_seq_lookup_iter by assumption.
      now destruct (iter_decrement_then_wrap_range _ (S i) Hb) as [_ ->].
Qed.

Lemma bas_notify_levels_in_range_witness :
  1 <= bas_battery_level (boot_world 2) <= 100
  /\ exists w' new,
       repeat_run 3 (bas_notify env_all_ok) (boot_world 2) = Ok tt w'
       /\ trace w' = trace (boot_world 2) ++ new
       /\ length (bas_levels_set new) = 3%nat
       /\ Forall (fun v => 1 <= v <= 100) (bas_levels_set new)
       /\ (0 ∉ bas_levels_set new)
       /\ 1 <= bas_battery_level w' <= 100
       /\ forall i, (i < 3)%nat ->
            bas_levels_set new !! i
            = Some (Nat.iter (S i) decrement_then_wrap
                      (bas_battery_level (boot_world 2))).
Proof.
  split; [cbn; lia |].
  apply (bas_notify_levels_in_range env_all_ok 3 (boot_world 2)). cbn. lia.
Defined.

(** ** The connection callbacks *)

(** C5: for every reason code, disconnected returns after looking up the
    reason's text, logging the reason, submitting start_advertising_worker
    and switching the connection LED off, in that order and nothing else.
    So the log line carries the reason, exactly one work item is submitted
    (the advertising restart), and bt_le_ext_adv_start is not called from
    the callback. *)
Theorem disconnected_submits_one_restart (env : Env) (conn reason : Z) (w : World) :
  exists w' new s,
    disconnected env conn reason w = Ok tt w'
    /\ w' = set_trace (trace w ++ new) w
    /\ new = [ev_bt_hci_err_to_str reason s;
              ev_printk ("Disconnected, reason 0x%02x %s" +:+ LF)
                        [arg_int reason; arg_str s];
              ev_k_work_submit start_advertising_worker;
              ev_dk_set_led_off CON_STATUS_LED]
    /\ List.filter is_work_submission new = [ev_k_work_submit start_advertising_worker]
    /\ List.filter is_adv_start new = [].
Proof.
  destruct (disconnected_run env conn reason w) as [s Hrun].
  eexists _, _, s. split; [exact Hrun |].
  split; [reflexivity |]. split; [reflexivity |]. split; reflexivity.
Qed.

(** C6: when the connected callback is given a non-zero error code, it
    returns after formatting the peer address, looking up the error's text
    and logging the error.  It does not call bt_conn_get_info, it calls no
    LED function, and the program's state is the one it started from: only
    the history of calls has grown. *)
Theorem connected_error_returns_early
    (phy : gap_phy) (env : Env) (conn conn_err : Z) (w : World) :
  conn_err <> 0 ->
  exists w' new dst addr s,
    connected phy env conn conn_err w = Ok tt w'
    /\ w' = set_trace (trace w ++ new) w
    /\ new = [ev_bt_conn_get_dst conn dst; ev_bt_addr_le_to_str dst addr;
              ev_bt_hci_err_to_str conn_err s;
              ev_printk ("Connection failed, err 0x%02x %s" +:+ LF)
                        [arg_int conn_err; arg_str s]]
    /\ List.filter is_conn_info_query new = []
    /\ List.filter is_led_event new = []
    /\ heartrate w' = heartrate w /\ adv_conn w' = adv_conn w
    /\ adv_large w' = adv_large w /\ adv_mfg_full w' = adv_mfg_full w
    /\ adv_mfg_last w' = adv_mfg_last w /\ ad_large w' = ad_large w
    /\ bas_battery_level w' = bas_battery_level w.
Proof.
  intros Herr.
  destruct (connected_error_run phy env conn conn_err w Herr)
    as (dst & addr & s & Hrun).
  eexists _, _, dst, addr, s. split; [exact Hrun |].
  split; [reflexivity |]. split; [reflexivity |].
  repeat split.
Qed.

Lemma connected_error_returns_early_witness :
  0x3e <> 0
  /\ exists w' new dst addr s,
       connected example_gap_phy env_all_ok 7 0x3e (boot_world 100) = Ok tt w'
       /\ w' = set_trace (trace (boot_world 100) ++ new) (boot_world 100)
       /\ new = [ev_bt_conn_get_dst 7 dst; ev_bt_addr_le_to_str dst addr;
                 ev_bt_hci_err_to_str 0x3e s;
                 ev_printk ("Connection failed, err 0x%02x %s" +:+ LF)
                           [arg_int 0x3e; arg_str s]]
       /\ List.filter is_conn_info_query new = []
       /\ List.filter is_led_event new = []
       /\ heartrate w' = heartrate (boot_world 100)
       /\ adv_conn w' = adv_conn (boot_world 100)
       /\ adv_large w' = adv_large (boot_world 100)
       /\ adv_mfg_full w' = adv_mfg_full (boot_world 100)
       /\ adv_mfg_last w' = adv_mfg_last (boot_world 100)
       /\ ad_large w' = ad_large (boot_world 100)
       /\ bas_battery_level w' = bas_battery_level (boot_world 100).
Proof.
  split; [lia |].
  apply (connected_error_returns_early example_gap_phy env_all_ok 7 0x3e
           (boot_world 100)).
  lia.
Defined.

(** ** Startup *)

(** C7: in any run of main, and in any run of create_advertising_coded,
    on buffers of the declared dimensions: if a startup call (dk_leds_init,
    bt_enable, bt_le_ext_adv_create, bt_le_ext_adv_set_data) answers a
    non-zero code, then no startup call before it had failed, all that
    follows it are log lines carrying that code, and main returns 0 without
    having submitted the advertising work item or started advertising;
    create_advertising_coded returns that code after a single log line. *)
Theorem startup_failure_aborts (env : Env) (rounds : nat) (w : World) :
  buffers_as_declared w = true ->
  (exists res w' new,
     main env rounds w = Ok res w' /\ trace w' = trace w ++ new
     /\ forall pre e post err,
          new = pre ++ e :: post -> startup_call_result e = Some err -> err <> 0 ->
          res = Some 0
          /\ Forall result_ok pre
          /\ post <> [] /\ Forall (logs_code err) post
          /\ Forall (fun e' => requests_advertising e' = false) new)
  /\ (exists res w' new,
        create_advertising_coded env w = Ok res w' /\ trace w' = trace w ++ new
        /\ forall pre e post err,
             new = pre ++ e :: post -> startup_call_result e = Some err -> err <> 0 ->
             res = err
             /\ Forall result_ok pre
             /\ exists fmt, post = [ev_printk fmt [arg_int err]]).
Proof.
  intros Hwf. split.
  - destruct (main_run env rounds w Hwf) as (res & w' & new & Hrun & Htr & Hcase).
    exists res, w', new. split; [exact Hrun |]. split; [exact Htr |].
    intros pre e post err Heq He Herr.
    destruct Hcase as [[_ Hok] | (-> & Hadv & err0 & tail & Hstop & Hne & Hlogs)].
    + destruct (no_failure_split new Hok pre e post err Heq He Herr).
    + destruct (stopped_at_failure_split new err0 tail Hstop Hlogs
                  pre e post err Heq He Herr) as (-> & -> & Hpre).
      repeat split; assumption.
  - destruct (create_advertising_coded_run env w Hwf)
      as (res & w' & new & Hrun & Htr & _ & Hcase).
    exists res, w', new. split; [exact Hrun |]. split; [exact Htr |].
    intros pre e post err Heq He Herr.
    destruct Hcase as [[_ Hok] | (fmt & Hstop)].
    + destruct (no_failure_split new Hok pre e post err Heq He Herr).
    + assert (Hlogs : Forall (logs_code res) [ev_printk fmt [arg_int res]])
        by (repeat constructor; eexists; reflexivity).
      destruct (stopped_at_failure_split new res _ Hstop Hlogs
                  pre e post err Heq He Herr) as (-> & -> & Hpre).
      split; [reflexivity |]. split; [assumption |]. now exists fmt.
Qed.

Lemma startup_failure_aborts_witness :
  buffers_as_declared (boot_world 100) = true
  /\ (exists res w' new,
        main env_large_create_fails 2 (boot_world 100) = Ok res w'
        /\ trace w' = trace (boot_world 100) ++ new
        /\ forall pre e post err,
             new = pre ++ e :: post -> startup_call_result e = Some err -> err <> 0 ->
             res = Some 0
             /\ Forall result_ok pre
             /\ post <> [] /\ Forall (logs_code err) post
             /\ Forall (fun e' => requests_advertising e' = false) new)
  /\ (exists res w' new,
        create_advertising_coded env_large_create_fails (boot_world 100) = Ok res w'
        /\ trace w' = trace (boot_world 100) ++ new
        /\ forall pre e post err,
             new = pre ++ e :: post -> startup_call_result e = Some err -> err <> 0 ->
             res = err
             /\ Forall result_ok pre
             /\ exists fmt, post = [ev_printk fmt [arg_int err]]).
Proof.
  split; [reflexivity |].
  apply (startup_failure_aborts env_large_create_fails 2 (boot_world 100)).
  reflexivity.
Defined.

(** C8: the two error paths differ.  In the connected callback with a
    zero connection error, whatever bt_conn_get_info answers, the callback
    goes on to switch the connection LED on; a non-zero answer is logged
    first.  In main, a non-zero answer of bt_le_ext_adv_create is followed
    by log lines only and main returns 0 without having requested
    advertising. *)
Theorem phy_query_failure_continues_creation_failure_aborts
    (phy : gap_phy) (env : Env) (conn : Z) (rounds : nat) (w : World) :
  buffers_as_declared w = true ->
  (exists dst addr err info line,
     connected phy env conn 0 w
     = Ok tt (set_trace
                (trace w ++
                 [ev_bt_conn_get_dst conn dst; ev_bt_addr_le_to_str dst addr;
                  ev_bt_conn_get_info conn err info; line;
                  ev_dk_set_led_on CON_STATUS_LED]) w)
     /\ (err, info)
        = bt_conn_get_info_ret env
            (trace w ++ [ev_bt_conn_get_dst conn dst; ev_bt_addr_le_to_str dst addr])
            conn
     /\ (err <> 0 ->
         line = ev_printk ("Failed to get connection info (err %d)" +:+ LF)
                          [arg_int err]))
  /\ (exists res w' new,
        main env rounds w = Ok res w' /\ trace w' = trace w ++ new
        /\ forall pre param err adv post,
             new = pre ++ ev_bt_le_ext_adv_create param err adv :: post ->
             err <> 0 ->
             res = Some 0
             /\ post <> [] /\ Forall (logs_code err) post
             /\ Forall (fun e' => requests_advertising e' = false) new).
Proof.
  intros Hwf. split.
  - destruct (connected_run phy env conn w)
      as (dst & addr & err & info & line & Hrun & Hans & Hfail & _).
    now exists dst, addr, err, info, line.
  - destruct (main_run env rounds w Hwf) as (res & w' & new & Hrun & Htr & Hcase).
    exists res, w', new. split; [exact Hrun |]. split; [exact Htr |].
    intros pre param err adv post Heq Herr.
    destruct Hcase as [[_ Hok] | (-> & Hadv & err0 & tail & Hstop & Hne & Hlogs)].
    + destruct (no_failure_split new Hok pre _ post err Heq eq_refl Herr).
    + destruct (stopped_at_failure_split new err0 tail Hstop Hlogs
                  pre _ post err Heq eq_refl Herr) as (-> & -> & _).
      repeat split; assumption.
Qed.

Lemma phy_query_failure_continues_creation_failure_aborts_witness :
  buffers_as_declared (boot_world 100) = true
  /\ (exists dst addr err info line,
        connected example_gap_phy env_get_info_fails 7 0 (boot_world 100)
        = Ok tt (set_trace
                   (trace (boot_world 100) ++
                    [ev_bt_conn_get_dst 7 dst; ev_bt_addr_le_to_str dst addr;
                     ev_bt_conn_get_info 7 err info; line;
                     ev_dk_set_led_on CON_STATUS_LED]) (boot_world 100))
        /\ (err, info)
           = bt_conn_get_info_ret env_get_info_fails
               (trace (boot_world 100)
                ++ [ev_bt_conn_get_dst 7 dst; ev_bt_addr_le_to_str dst addr])
               7
        /\ (err <> 0 ->
            line = ev_printk ("Failed to get connection info (err %d)" +:+ LF)
                             [arg_int err]))
  /\ (exists res w' new,
        main env_get_info_fails 2 (boot_world 100) = Ok res w'
        /\ trace w' = trace (boot_world 100) ++ new
        /\ forall pre param err adv post,
             new = pre ++ ev_bt_le_ext_adv_create param err adv :: post ->
             err <> 0 ->
             res = Some 0
             /\ post <> [] /\ Forall (logs_code err) post
             /\ Forall (fun e' => requests_advertising e' = false) new).
Proof.
  split; [reflexivity |].
  apply (phy_query_failure_continues_creation_failure_aborts
           example_gap_phy env_get_info_fails 7 2 (boot_world 100)).
  reflexivity.
Defined.

(** ** The PHY names *)

(** C10: phy_to_str answers every code.  With the six PHY codes pairwise
    distinct, it gives each of them its fixed name, it gives "Unknown" for
    every other value, and so its answer is always one of the seven
    strings. *)
Theorem phy_to_str_total (phy : gap_phy) :
  phy_codes_distinct phy ->
  phy_to_str phy (BT_GAP_LE_PHY_NONE phy) = "No packets"
  /\ phy_to_str phy (BT_GAP_LE_PHY_1M phy) = "LE 1M"
  /\ phy_to_str phy (BT_GAP_LE_PHY_2M phy) = "LE 2M"
  /\ phy_to_str phy (BT_GAP_LE_PHY_CODED phy) = "LE Coded"
  /\ phy_to_str phy (BT_GAP_LE_PHY_CODED_S8 phy) = "S=8 Coded"
  /\ phy_to_str phy (BT_GAP_LE_PHY_CODED_S2 phy) = "S=2 Coded"
  /\ (forall code,
        code ∉ [BT_GAP_LE_PHY_NONE phy; BT_GAP_LE_PHY_1M phy; BT_GAP_LE_PHY_2M phy;
                BT_GAP_LE_PHY_CODED phy; BT_GAP_LE_PHY_CODED_S8 phy;
                BT_GAP_LE_PHY_CODED_S2 phy] ->
        phy_to_str phy code = "Unknown")
  /\ (forall code,
        phy_to_str phy code
        ∈ ["No packets"; "LE 1M"; "LE 2M"; "LE Coded"; "S=8 Coded"; "S=2 Coded";
           "Unknown"]).
Proof.
  unfold phy_codes_distinct. intros Hnd.
  rewrite !NoDup_cons in Hnd. rewrite !not_elem_of_cons in Hnd.
  destruct Hnd as ((?&?&?&?&?&_) & (?&?&?&?&_) & (?&?&?&_) & (?&?&_) & (?&_) & _).
  unfold phy_to_str.
  repeat split.
  1-6: repeat match goal with
         | |- context [?a =? ?b] => destruct (Z.eqb_spec a b); try congruence
         end.
  - intros code Hcode. rewrite !not_elem_of_cons in Hcode.
    destruct Hcode as (?&?&?&?&?&?&_).
    repeat match goal with
           | |- context [?a =? ?b] => destruct (Z.eqb_spec a b); try congruence
           end.
  - intros code.
    repeat match goal with
           | |- context [?a =? ?b] => destruct (Z.eqb_spec a b)
           end;
      rewrite !elem_of_cons; auto 10.
Qed.

Lemma phy_to_str_total_witness :
  phy_codes_distinct example_gap_phy
  /\ phy_to_str example_gap_phy 0 = "No packets"
  /\ phy_to_str example_gap_phy 1 = "LE 1M"
  /\ phy_to_str example_gap_phy 2 = "LE 2M"
  /\ phy_to_str example_gap_phy 4 = "LE Coded"
  /\ phy_to_str example_gap_phy 8 = "S=8 Coded"
  /\ phy_to_str example_gap_phy 16 = "S=2 Coded"
  /\ (forall code,
        code ∉ [0; 1; 2; 4; 8; 16] -> phy_to_str example_gap_phy code = "Unknown")
  /\ (forall code,
        phy_to_str example_gap_phy code
        ∈ ["No packets"; "LE 1M"; "LE 2M"; "LE Coded"; "S=8 Coded"; "S=2 Coded";
           "Unknown"]).
Proof.
  assert (H : phy_codes_distinct example_gap_phy)
    by (apply (bool_decide_unpack _); vm_compute; reflexivity).
  split; [exact H |].
  apply (phy_to_str_total example_gap_phy H).
Defined.

(** ** The periodic work item *)

Lemma notify_work_handler_run env work w :
  1 <= bas_battery_level w <= 100 ->
  notify_work_handler env work w
  = Ok tt (set_trace
             (trace w ++
              ev_bt_hrs_notify (hr_next (heartrate w))
                :: bas_round (bas_battery_level w) (bas_next (bas_battery_level w))
                ++ [ev_k_work_reschedule work (K_MSEC NOTIFY_INTERVAL)])
             (set_bas_battery_level (bas_next (bas_battery_level w))
                (set_heartrate (hr_next (heartrate w)) w))).
Proof.
  intros Hb. unfold notify_work_handler.
  erewrite bind_Ok by apply hrs_notify_run.
  erewrite bind_Ok by (apply bas_notify_run; exact Hb).
  destruct w as [h c l full last ad b t].
  unfold k_work_reschedule, k_work_delayable_from_work, emit, modify, bas_round.
  cbn. now rewrite <- !app_assoc.
Qed.

(** The two counters as notify_work_handler drives them: [n] firings from
    a battery level in [1,100] notify the heart rates [hr_seq] and write the
    battery levels [bas_seq], and every firing reschedules the work item. *)
Lemma notify_work_handler_runs env n : forall w,
  1 <= bas_battery_level w <= 100 ->
  exists w' new,
    repeat_run n (notify_work_handler env notify_work) w = Ok tt w'
    /\ trace w' = trace w ++ new
    /\ hrs_notified new = hr_seq (heartrate w) n
    /\ bas_levels_set new = bas_seq (bas_battery_level w) n
    /\ List.filter is_work_submission new
       = replicate n (ev_k_work_reschedule notify_work (K_MSEC NOTIFY_INTERVAL)).
Proof.
  induction n as [|n IH]; intros w Hb.
  - exists w, []. cbn. now rewrite app_nil_r.
  - cbn [repeat_run].
    erewrite bind_Ok by (apply notify_work_handler_run; exact Hb).
    match goal with
    | |- context [repeat_run n _ ?w1] =>
        destruct (IH w1) as (w' & new & Hrun & Htr & Hhr & Hbas & Hwk);
          [cbn; now apply bas_next_range |]
    end.
    cbn [heartrate bas_battery_level trace set_trace set_bas_battery_level
         set_heartrate] in Htr, Hhr, Hbas.
    exists w',
      (ev_bt_hrs_notify (hr_next (heartrate w))
         :: bas_round (bas_battery_level w) (bas_next (bas_battery_level w))
         ++ ev_k_work_reschedule notify_work (K_MSEC NOTIFY_INTERVAL) :: new).
    split; [exact Hrun |].
    split; [rewrite Htr, <- !app_assoc; reflexivity |].
    cbn [hr_seq bas_seq replicate]. rewrite <- Hhr, <- Hbas, <- Hwk.
    now repeat split.
Qed.

(** ** Runs against the concrete hosts *)

(** Startup when creating the large advertising set fails: both log lines
    carry -12, main returns 0, and neither work item was submitted. *)
Example main_when_large_create_fails :
  main env_large_create_fails 5 (boot_world 100)
  = Ok (Some 0)
       (set_adv_conn 1
          (set_trace
             [ev_printk ("Starting Bluetooth Peripheral HR coded sample" +:+ LF) [];
              ev_dk_leds_init 0;
              ev_bt_enable 0;
              ev_printk ("Bluetooth initialized" +:+ LF) [];
              ev_bt_le_ext_adv_create
                (BT_LE_ADV_PARAM_INIT
                   [BT_LE_ADV_OPT_CONN; BT_LE_ADV_OPT_EXT_ADV; BT_LE_ADV_OPT_CODED;
                    BT_LE_ADV_OPT_REQUIRE_S8_CODING]
                   BT_GAP_ADV_FAST_INT_MIN_2 BT_GAP_ADV_FAST_INT_MAX_2) 0 1;
              ev_printk ("Created connectable adv: %p" +:+ LF) [arg_ptr 1];
              ev_bt_le_ext_adv_set_data 1 ad_conn 3 0;
              ev_bt_le_ext_adv_create
                (BT_LE_ADV_PARAM_INIT
                   [BT_LE_ADV_OPT_EXT_ADV; BT_LE_ADV_OPT_CODED;
                    BT_LE_ADV_OPT_REQUIRE_S8_CODING]
                   BT_GAP_ADV_SLOW_INT_MIN BT_GAP_ADV_SLOW_INT_MAX) (-12) 0;
              ev_printk ("Failed to create large advertiser (err %d)" +:+ LF)
                        [arg_int (-12)];
              ev_printk ("Advertising failed to create (err %d)" +:+ LF)
                        [arg_int (-12)]]
             (boot_world 100))).
Proof. vm_compute. reflexivity. Qed.

(** Startup when every call succeeds: both sets get their data (3 and 7
    entries), both work items are submitted, and main stays in its loop. *)
Example main_when_all_calls_succeed :
  exists w',
    main env_all_ok 2 (boot_world 100) = Ok None w'
    /\ drop 4 (trace w')
       = [ev_bt_le_ext_adv_create
            (BT_LE_ADV_PARAM_INIT
               [BT_LE_ADV_OPT_CONN; BT_LE_ADV_OPT_EXT_ADV; BT_LE_ADV_OPT_CODED;
                BT_LE_ADV_OPT_REQUIRE_S8_CODING]
               BT_GAP_ADV_FAST_INT_MIN_2 BT_GAP_ADV_FAST_INT_MAX_2) 0 1;
          ev_printk ("Created connectable adv: %p" +:+ LF) [arg_ptr 1];
          ev_bt_le_ext_adv_set_data 1 ad_conn 3 0;
          ev_bt_le_ext_adv_create
            (BT_LE_ADV_PARAM_INIT
               [BT_LE_ADV_OPT_EXT_ADV; BT_LE_ADV_OPT_CODED;
                BT_LE_ADV_OPT_REQUIRE_S8_CODING]
               BT_GAP_ADV_SLOW_INT_MIN BT_GAP_ADV_SLOW_INT_MAX) 0 2;
          ev_printk ("Created large adv: %p" +:+ LF) [arg_ptr 2];
          ev_bt_le_ext_adv_set_data 2 ad_large_array 7 0;
          ev_k_work_submit start_advertising_worker;
          ev_k_work_schedule notify_work K_NO_WAIT;
          ev_dk_set_led RUN_STATUS_LED 1; ev_k_sleep (K_MSEC 1000);
          ev_dk_set_led RUN_STATUS_LED 0; ev_k_sleep (K_MSEC 1000)]
    /\ payload_total_bytes (ad_large w') = ADV_TARGET_TOTAL_LEN.
Proof. eexists. split; [vm_compute; reflexivity |]. split; vm_compute; reflexivity. Qed.

(** A connection whose info query fails with -128: the failure is logged and
    the connection LED is switched on all the same. *)
Example connected_when_get_info_fails :
  connected example_gap_phy env_get_info_fails 7 0 (boot_world 100)
  = Ok tt
       (set_trace
          [ev_bt_conn_get_dst 7 15;
           ev_bt_addr_le_to_str 15 "C0:FF:EE:00:00:01 (random)";
           ev_bt_conn_get_info 7 (-128) (mk_phy_info 0 0);
           ev_printk ("Failed to get connection info (err %d)" +:+ LF) [arg_int (-128)];
           ev_dk_set_led_on CON_STATUS_LED]
          (boot_world 100)).
Proof. vm_compute. reflexivity. Qed.

(** A connection on the coded PHY. *)
Example connected_on_coded_phy :
  connected example_gap_phy env_all_ok 7 0 (boot_world 100)
  = Ok tt
       (set_trace
          [ev_bt_conn_get_dst 7 15;
           ev_bt_addr_le_to_str 15 "C0:FF:EE:00:00:01 (random)";
           ev_bt_conn_get_info 7 0 (mk_phy_info 4 4);
           ev_printk ("Connected: %s, tx_phy %s, rx_phy %s" +:+ LF)
                     [arg_str "C0:FF:EE:00:00:01 (random)"; arg_str "LE Coded";
                      arg_str "LE Coded"];
           ev_dk_set_led_on CON_STATUS_LED]
          (boot_world 100)).
Proof. vm_compute. reflexivity. Qed.

(** Three notification rounds from battery level 2: the heart rate goes
    101, 102, 103, the battery 1, 100, 99. *)
Example three_notify_rounds :
  exists w',
    repeat_run 3 (notify_work_handler env_all_ok notify_work) (boot_world 2) = Ok tt w'
    /\ hrs_notified (trace w') = [101; 102; 103]
    /\ bas_levels_set (trace w') = [1; 100; 99]
    /\ List.filter is_work_submission (trace w')
       = replicate 3 (ev_k_work_reschedule notify_work (K_MSEC 1000)).
Proof. eexists. split; [vm_compute; reflexivity |]. repeat split. Qed.

(** With assertions enabled, bas_notify stops at a battery level of 0. *)
Example bas_notify_at_level_zero :
  bas_notify env_all_ok (boot_world 0)
  = Stop assertion_failed (set_trace [ev_bt_bas_get_battery_level 0] (boot_world 0)).
Proof. vm_compute. reflexivity. Qed.

(** * Further properties *)

(** ** How create_advertising_coded ends *)

Lemma create_advertising_coded_cases env w :
  buffers_as_declared w = true ->
  exists c,
    create_end_ok c
    /\ create_advertising_coded env w
       = Ok (create_end_result c)
            (set_trace (trace w ++ create_end_trace c) (create_end_statics c w)).
Proof.
  intros Hwf. destruct w as [h c l full last ad b t].
  unfold create_advertising_coded. unfold_calls.
  cbn -[build_large_adv_payload].
  destruct (bt_le_ext_adv_create_ret env _ _ _) as [e1 a1].
  cbn -[build_large_adv_payload].
  destruct (c_true e1) eqn:C1; cbn -[build_large_adv_payload].
  { exists (end_create_conn e1 a1). split; [now apply c_true_true |].
    cbn. now rewrite <- !app_assoc. }
  apply c_true_false in C1. subst e1.
  match goal with
  | |- context [bt_le_ext_adv_set_data_ret ?a ?b ?c ?d ?e] =>
      set (e2 := bt_le_ext_adv_set_data_ret a b c d e)
  end.
  destruct (c_true e2) eqn:C2; cbn -[build_large_adv_payload].
  { exists (end_set_conn a1 e2). split; [now apply c_true_true |].
    cbn. now rewrite <- !app_assoc. }
  apply c_true_false in C2. rewrite C2.
  destruct (bt_le_ext_adv_create_ret env _ _ _) as [e3 a3].
  cbn -[build_large_adv_payload].
  destruct (c_true e3) eqn:C3; cbn -[build_large_adv_payload].
  { exists (end_create_large a1 e3 a3). split; [now apply c_true_true |].
    cbn. now rewrite <- !app_assoc. }
  apply c_true_false in C3. subst e3.
  rewrite build_large_adv_payload_run by exact Hwf.
  unfold built_world, set_ad_large, set_adv_mfg_last, set_adv_mfg_full.
  cbn [trace adv_large heartrate adv_conn bas_battery_level].
  match goal with
  | |- context [bt_le_ext_adv_set_data_ret ?a ?b ?c ?d ?e] =>
      set (e4 := bt_le_ext_adv_set_data_ret a b c d e)
  end.
  destruct (c_true e4) eqn:C4.
  { exists (end_set_large a1 a3 e4). split; [now apply c_true_true |].
    cbn. now rewrite <- !app_assoc. }
  apply c_true_false in C4. rewrite C4.
  exists (end_created a1 a3). split; [exact I |].
  cbn. now rewrite <- !app_assoc.
Qed.

(** ** The status loop *)

Lemma to_uint32_parity x : to_uint32 x mod 2 = x mod 2.
Proof.
  unfold to_uint32. apply Z.mod_mod_divide.
  exists 2147483648. reflexivity.
Qed.

Lemma add_parity a b k : a mod 2 = b mod 2 -> (a + k) mod 2 = (b + k) mod 2.
Proof. intros H. rewrite (Z.add_mod a), (Z.add_mod b) by lia. now rewrite H. Qed.

Lemma status_rounds_parity a b n :
  a mod 2 = b mod 2 -> status_rounds a n = status_rounds b n.
Proof.
  intros H. unfold status_rounds. apply List.flat_map_ext. intros k.
  now rewrite (add_parity a b).
Qed.

Lemma status_rounds_S s n :
  status_rounds s (S n) = status_round ((s + 1) mod 2) ++ status_rounds (s + 1) n.
Proof.
  unfold status_rounds. cbn [seq List.flat_map]. f_equal.
  rewrite <- seq_shift, List.flat_map_concat_map, List.map_map,
    <- List.flat_map_concat_map.
  apply List.flat_map_ext. intros k. do 2 f_equal. lia.
Qed.

Lemma status_loop_exact rounds : forall led_status w,
  status_loop rounds led_status w
  = Ok None (set_trace (trace w ++ status_rounds led_status rounds) w).
Proof.
  induction rounds as [|n IH]; intros s w.
  - destruct w; cbn. now rewrite app_nil_r.
  - cbn [status_loop]. unfold_calls. cbn -[status_loop status_rounds].
    rewrite IH. rewrite status_rounds_S. cbn -[status_rounds].
    rewrite (status_rounds_parity (to_uint32 (s + 1)) (s + 1))
      by apply to_uint32_parity.
    rewrite to_uint32_parity. unfold status_round.
    rewrite <- !app_assoc. reflexivity.
Qed.

(** ** How main ends *)

Lemma main_cases env rounds w :
  buffers_as_declared w = true ->
  exists m,
    main_end_ok m
    /\ main env rounds w
       = Ok (main_end_result m)
            (set_trace (trace w ++ main_end_trace rounds m) (main_end_statics m w)).
Proof.
  intros Hwf. destruct w as [h c l full last ad b t].
  unfold main. unfold_calls. cbn -[create_advertising_coded status_loop].
  match goal with
  | |- context [dk_leds_init_ret ?a ?b] => set (e1 := dk_leds_init_ret a b)
  end.
  destruct (c_true e1) eqn:C1; cbn -[create_advertising_coded status_loop].
  { exists (end_leds e1). split; [now apply c_true_true |].
    cbn. now rewrite <- !app_assoc. }
  apply c_true_false in C1. rewrite C1.
  match goal with
  | |- context [bt_enable_ret ?a ?b] => set (e2 := bt_enable_ret a b)
  end.
  destruct (c_true e2) eqn:C2; cbn -[create_advertising_coded status_loop].
  { exists (end_enable e2). split; [now apply c_true_true |].
    cbn. now rewrite <- !app_assoc. }
  apply c_true_false in C2. rewrite C2.
  match goal with
  | |- context [create_advertising_coded env ?w2] =>
      destruct (create_advertising_coded_cases env w2 Hwf) as (ce & Hok & ->)
  end.
  destruct (c_true (create_end_result ce)) eqn:C3.
  - exists (end_create ce). split; [now apply c_true_true |].
    destruct ce; cbn; now rewrite <- !app_assoc.
  - destruct ce; cbn in Hok; try (apply c_true_false in C3; contradiction).
    exists (end_running a1 a3). split; [exact I |].
    rewrite status_loop_exact. cbn -[status_rounds].
    now rewrite <- !app_assoc.
Qed.

Lemma status_rounds_lookup n : forall s k,
  (1 <= k <= n)%nat ->
  status_rounds s n !! (2 * (k - 1))%nat
  = Some (ev_dk_set_led RUN_STATUS_LED ((s + Z.of_nat k) mod 2))
  /\ status_rounds s n !! (2 * (k - 1) + 1)%nat
     = Some (ev_k_sleep (K_MSEC RUN_LED_BLINK_INTERVAL)).
Proof.
  induction n as [|n IH]; intros s k Hk; [lia |].
  rewrite status_rounds_S. unfold status_round. cbn [app].
  destruct (decide (k = 1%nat)) as [-> | Hne].
  - split; reflexivity.
  - replace (2 * (k - 1))%nat with (S (S (2 * (k - 1 - 1)))) by lia.
    cbn [lookup list_lookup Nat.add].
    destruct (IH (s + 1) (k - 1)%nat ltac:(lia)) as [H1 H2].
    replace (s + 1 + Z.of_nat (k - 1)) with (s + Z.of_nat k) in H1 by lia.
    split; [exact H1 | exact H2].
Qed.

Lemma status_rounds_length s n : length (status_rounds s n) = (2 * n)%nat.
Proof.
  revert s. induction n as [|n IH]; intros s; [reflexivity |].
  rewrite status_rounds_S, length_app, IH. cbn. lia.
Qed.

Lemma status_rounds_no_work s n :
  List.filter is_work_submission (status_rounds s n) = [].
Proof.
  revert s. induction n as [|n IH]; intros s; [reflexivity |].
  rewrite status_rounds_S, List.filter_app, IH. reflexivity.
Qed.

Lemma status_rounds_leds s n :
  List.filter is_led_event (status_rounds s n)
  = (fun k => ev_dk_set_led RUN_STATUS_LED ((s + Z.of_nat k) mod 2)) <$> seq 1 n.
Proof.
  revert s. induction n as [|n IH]; intros s; [reflexivity |].
  rewrite status_rounds_S, List.filter_app, IH.
  cbn [seq]. rewrite <- (fmap_S_seq 1 n), fmap_cons, <- list_fmap_compose.
  cbn [status_round List.filter is_led_event app]. f_equal.
  apply list_fmap_ext. intros _ k _. cbn. do 2 f_equal. lia.
Qed.

Lemma status_rounds_result_ok s n : Forall result_ok (status_rounds s n).
Proof.
  revert s. induction n as [|n IH]; intros s; [constructor |].
  rewrite status_rounds_S. apply Forall_app_2; [| apply IH].
  unfold status_round. result_ok_list.
Qed.

(** X1: main's loop, for any number of rounds and any counter value it
    starts from, makes two calls per round: in round k (k = 1, 2, ...) it
    sets the run LED to (led_status + k) mod 2 and then sleeps for the blink
    interval.  The 32-bit wrap of the counter does not disturb the
    alternation, and the loop touches no static. *)
Theorem status_loop_blinks (rounds : nat) (led_status : Z) (w : World) :
  exists new,
    status_loop rounds led_status w = Ok None (set_trace (trace w ++ new) w)
    /\ length new = (2 * rounds)%nat
    /\ forall k, (1 <= k <= rounds)%nat ->
         new !! (2 * (k - 1))%nat
         = Some (ev_dk_set_led RUN_STATUS_LED ((led_status + Z.of_nat k) mod 2))
         /\ new !! (2 * (k - 1) + 1)%nat
            = Some (ev_k_sleep (K_MSEC RUN_LED_BLINK_INTERVAL)).
Proof.
  exists (status_rounds led_status rounds).
  split; [apply status_loop_exact |].
  split; [apply status_rounds_length |].
  intros k Hk. now apply status_rounds_lookup.
Qed.

(** X2: main either stays in its loop or returns 0.  It stays exactly when
    no startup call failed, and then it has submitted
    start_advertising_worker and scheduled notify_work without delay, once
    each and in that order, and blinks the run LED starting with "on".  When
    it returns, it has submitted no work item and made no LED call. *)
Theorem main_runs_iff_startup_succeeded (env : Env) (rounds : nat) (w : World) :
  buffers_as_declared w = true ->
  exists res w' new,
    main env rounds w = Ok res w' /\ trace w' = trace w ++ new
    /\ ((res = None
         /\ Forall result_ok new
         /\ List.filter is_work_submission new
            = [ev_k_work_submit start_advertising_worker;
               ev_k_work_schedule notify_work K_NO_WAIT]
         /\ List.filter is_led_event new
            = (fun k => ev_dk_set_led RUN_STATUS_LED (Z.of_nat k mod 2))
                <$> seq 1 rounds)
        \/ (res = Some 0
            /\ ~ Forall result_ok new
            /\ List.filter is_work_submission new = []
            /\ List.filter is_led_event new = [])).
Proof.
  intros Hwf. destruct (main_cases env rounds w Hwf) as (m & Hok & Hrun).
  eexists _, _, _. split; [exact Hrun |]. split; [reflexivity |].
  destruct m as [e | e | ce | a1 a3]; cbn [main_end_result main_end_ok] in *.
  - right. split; [reflexivity |]. split; [| split; reflexivity].
    intros H. cbn in H. rewrite !Forall_cons in H.
    destruct H as (_ & H & _). now apply Hok, H.
  - right. split; [reflexivity |]. split; [| split; reflexivity].
    intros H. cbn in H. rewrite !Forall_cons in H.
    destruct H as (_ & _ & H & _). now apply Hok, H.
  - right. split; [reflexivity |].
    destruct ce; cbn in Hok |- *;
      (split; [| split; reflexivity]);
      intros H; rewrite !Forall_cons in H.
    + destruct H as (_ & _ & _ & _ & H & _). now apply Hok, H.
    + destruct H as (_ & _ & _ & _ & _ & _ & H & _). now apply Hok, H.
    + destruct H as (_ & _ & _ & _ & _ & _ & _ & H & _). now apply Hok, H.
    + destruct H as (_ & _ & _ & _ & _ & _ & _ & _ & _ & H & _). now apply Hok, H.
    + now apply Hok.
  - left. split; [reflexivity |].
    cbn [main_end_trace main_enabled main_start create_end_trace conn_set_up
         large_set_up app].
    split; [| split].
    + result_ok_list. apply status_rounds_result_ok.
    + cbn [List.filter is_work_submission]. now rewrite status_rounds_no_work.
    + cbn [List.filter is_led_event]. rewrite status_rounds_leds.
      apply list_fmap_ext. intros _ k _. cbn. reflexivity.
Qed.

Lemma main_runs_iff_startup_succeeded_witness :
  buffers_as_declared (boot_world 100) = true
  /\ exists res w' new,
       main env_all_ok 3 (boot_world 100) = Ok res w'
       /\ trace w' = trace (boot_world 100) ++ new
       /\ ((res = None
            /\ Forall result_ok new
            /\ List.filter is_work_submission new
               = [ev_k_work_submit start_advertising_worker;
                  ev_k_work_schedule notify_work K_NO_WAIT]
            /\ List.filter is_led_event new
               = (fun k => ev_dk_set_led RUN_STATUS_LED (Z.of_nat k mod 2))
                   <$> seq 1 3)
           \/ (res = Some 0
               /\ ~ Forall result_ok new
               /\ List.filter is_work_submission new = []
               /\ List.filter is_led_event new = [])).
Proof.
  split; [reflexivity |].
  apply (main_runs_iff_startup_succeeded env_all_ok 3 (boot_world 100)).
  reflexivity.
Defined.

(** ** Setting up and starting the advertising sets *)

(** X3: create_advertising_coded returns 0 only after all four host calls
    answered 0.  It has then created the connectable set, handed it
    [ad_conn] with 3 entries, created the large set and handed it [ad_large]
    with 7 entries, each time under the handle the creation just returned;
    the two handles are left in [adv_conn] and [adv_large], and [ad_large]
    holds the 1650-byte payload. *)
Theorem create_advertising_coded_success (env : Env) (w w' : World) :
  buffers_as_declared w = true ->
  create_advertising_coded env w = Ok 0 w' ->
  exists a1 a3,
    trace w'
    = trace w ++
      [ev_bt_le_ext_adv_create param_conn 0 a1;
       ev_printk ("Created connectable adv: %p" +:+ LF) [arg_ptr a1];
       ev_bt_le_ext_adv_set_data a1 ad_conn 3 0;
       ev_bt_le_ext_adv_create param_large 0 a3;
       ev_printk ("Created large adv: %p" +:+ LF) [arg_ptr a3];
       ev_bt_le_ext_adv_set_data a3 ad_large_array 7 0]
    /\ adv_conn w' = a1 /\ adv_large w' = a3
    /\ payload_total_bytes (ad_large w') = ADV_TARGET_TOTAL_LEN
    /\ heartrate w' = heartrate w
    /\ bas_battery_level w' = bas_battery_level w.
Proof.
  intros Hwf Hrun.
  destruct (create_advertising_coded_cases env w Hwf) as (ce & Hok & Hce).
  rewrite Hce in Hrun. injection Hrun as Hres <-.
  destruct ce; cbn in Hok, Hres; try contradiction.
  exists a1, a3. repeat split.
Qed.

Lemma create_advertising_coded_success_witness :
  buffers_as_declared (boot_world 100) = true
  /\ create_advertising_coded env_all_ok (boot_world 100)
     = Ok 0 (set_trace (create_end_trace (end_created 1 2))
               (create_end_statics (end_created 1 2) (boot_world 100)))
  /\ exists a1 a3,
       trace (set_trace (create_end_trace (end_created 1 2))
                (create_end_statics (end_created 1 2) (boot_world 100)))
       = trace (boot_world 100) ++
         [ev_bt_le_ext_adv_create param_conn 0 a1;
          ev_printk ("Created connectable adv: %p" +:+ LF) [arg_ptr a1];
          ev_bt_le_ext_adv_set_data a1 ad_conn 3 0;
          ev_bt_le_ext_adv_create param_large 0 a3;
          ev_printk ("Created large adv: %p" +:+ LF) [arg_ptr a3];
          ev_bt_le_ext_adv_set_data a3 ad_large_array 7 0]
       /\ adv_conn (set_trace (create_end_trace (end_created 1 2))
                      (create_end_statics (end_created 1 2) (boot_world 100))) = a1
       /\ adv_large (set_trace (create_end_trace (end_created 1 2))
                       (create_end_statics (end_created 1 2) (boot_world 100))) = a3
       /\ payload_total_bytes
            (ad_large (set_trace (create_end_trace (end_created 1 2))
                         (create_end_statics (end_created 1 2) (boot_world 100))))
          = ADV_TARGET_TOTAL_LEN
       /\ heartrate (set_trace (create_end_trace (end_created 1 2))
                       (create_end_statics (end_created 1 2) (boot_world 100)))
          = heartrate (boot_world 100)
       /\ bas_battery_level
            (set_trace (create_end_trace (end_created 1 2))
               (create_end_statics (end_created 1 2) (boot_world 100)))
          = bas_battery_level (boot_world 100).
Proof.
  split; [reflexivity |].
  split; [vm_compute; reflexivity |].
  apply (create_advertising_coded_success env_all_ok (boot_world 100)).
  - reflexivity.
  - vm_compute. reflexivity.
Defined.

(** X4: create_advertising_coded builds the large payload late.  If the
    run ends before [ad_large] is handed to the host (one of the first three
    calls failed), the three payload buffers are exactly as they were; if
    [ad_large] is handed over, it is handed over once and the buffers
    already hold the finished payload. *)
Theorem create_advertising_coded_builds_payload_late (env : Env) (w : World) :
  buffers_as_declared w = true ->
  exists res w' new,
    create_advertising_coded env w = Ok res w' /\ trace w' = trace w ++ new
    /\ ((List.filter is_large_set_data new = []
         /\ res <> 0
         /\ adv_mfg_full w' = adv_mfg_full w
         /\ adv_mfg_last w' = adv_mfg_last w
         /\ ad_large w' = ad_large w)
        \/ (length (List.filter is_large_set_data new) = 1%nat
            /\ adv_mfg_full w' = adv_mfg_full (built_world w)
            /\ adv_mfg_last w' = adv_mfg_last (built_world w)
            /\ ad_large w' = ad_large (built_world w)
            /\ payload_total_bytes (ad_large w') = ADV_TARGET_TOTAL_LEN)).
Proof.
  intros Hwf.
  destruct (create_advertising_coded_cases env w Hwf) as (ce & Hok & Hce).
  eexists _, _, _. split; [exact Hce |]. split; [reflexivity |].
  destruct ce; cbn in Hok |- *.
  1-3: left; repeat split; assumption.
  all: right; repeat split.
Qed.

Lemma create_advertising_coded_builds_payload_late_witness :
  buffers_as_declared (boot_world 100) = true
  /\ exists res w' new,
       create_advertising_coded env_large_create_fails (boot_world 100) = Ok res w'
       /\ trace w' = trace (boot_world 100) ++ new
       /\ ((List.filter is_large_set_data new = []
            /\ res <> 0
            /\ adv_mfg_full w' = adv_mfg_full (boot_world 100)
            /\ adv_mfg_last w' = adv_mfg_last (boot_world 100)
            /\ ad_large w' = ad_large (boot_world 100))
           \/ (length (List.filter is_large_set_data new) = 1%nat
               /\ adv_mfg_full w' = adv_mfg_full (built_world (boot_world 100))
               /\ adv_mfg_last w' = adv_mfg_last (built_world (boot_world 100))
               /\ ad_large w' = ad_large (built_world (boot_world 100))
               /\ payload_total_bytes (ad_large w') = ADV_TARGET_TOTAL_LEN)).
Proof.
  split; [reflexivity |].
  apply (create_advertising_coded_builds_payload_late env_large_create_fails
           (boot_world 100)).
  reflexivity.
Defined.

Lemma start_advertising_coded_run env work w :
  let e1 := bt_le_ext_adv_start_ret env (trace w) (adv_conn w) in
  let conn_started :=
    [ev_bt_le_ext_adv_start (adv_conn w) 0;
     ev_printk ("Connectable advertiser %p started" +:+ LF) [arg_ptr (adv_conn w)]] in
  let e2 := bt_le_ext_adv_start_ret env (trace w ++ conn_started) (adv_large w) in
  start_advertising_coded env work w
  = Ok tt
       (set_trace
          (trace w ++
           if c_true e1 then
             [ev_bt_le_ext_adv_start (adv_conn w) e1;
              ev_printk ("Failed to start connectable advertiser (err %d)" +:+ LF)
                        [arg_int e1]]
           else
             conn_started
             ++ [ev_bt_le_ext_adv_start (adv_large w) e2;
                 if c_true e2 then
                   ev_printk ("Failed to start large advertiser (err %d)" +:+ LF)
                             [arg_int e2]
                 else
                   ev_printk ("Large advertiser %p started" +:+ LF)
                             [arg_ptr (adv_large w)]]) w).
Proof.
  destruct w as [h c l full last ad b t].
  unfold start_advertising_coded. unfold_calls. cbn.
  destruct (c_true (bt_le_ext_adv_start_ret env t c)) eqn:C1; cbn.
  - now rewrite <- !app_assoc.
  - apply c_true_false in C1. rewrite C1.
    rewrite <- !app_assoc. cbn [app].
    match goal with
    | |- context [c_true ?e] => destruct (c_true e)
    end; cbn; now rewrite <- !app_assoc.
Qed.

(** X5: start_advertising_coded asks the host to start [adv_conn] first.
    If that fails it logs the code and returns without touching the large
    set; otherwise it asks to start [adv_large] and logs that call's outcome.
    Each set is asked at most once, nothing is retried, and no static
    changes. *)
Theorem start_advertising_coded_order (env : Env) (work : work_item) (w : World) :
  exists new e1,
    start_advertising_coded env work w = Ok tt (set_trace (trace w ++ new) w)
    /\ e1 = bt_le_ext_adv_start_ret env (trace w) (adv_conn w)
    /\ (e1 <> 0 ->
        new = [ev_bt_le_ext_adv_start (adv_conn w) e1;
               ev_printk ("Failed to start connectable advertiser (err %d)" +:+ LF)
                         [arg_int e1]])
    /\ (e1 = 0 ->
        exists e2 line,
          new = [ev_bt_le_ext_adv_start (adv_conn w) 0;
                 ev_printk ("Connectable advertiser %p started" +:+ LF)
                           [arg_ptr (adv_conn w)];
                 ev_bt_le_ext_adv_start (adv_large w) e2; line]
          /\ (e2 <> 0 ->
              line = ev_printk ("Failed to start large advertiser (err %d)" +:+ LF)
                               [arg_int e2])
          /\ (e2 = 0 ->
              line = ev_printk ("Large advertiser %p started" +:+ LF)
                               [arg_ptr (adv_large w)])).
Proof.
  eexists _, _. split; [apply start_advertising_coded_run |].
  split; [reflexivity |]. cbv zeta.
  set (e1 := bt_le_ext_adv_start_ret env (trace w) (adv_conn w)).
  split.
  - intros Hne. replace (c_true e1) with true; [reflexivity |].
    unfold c_true. now destruct (Z.eqb_spec e1 0).
  - intros He. rewrite He. cbn [c_true Z.eqb negb app].
    eexists _, _. split; [reflexivity |]. split.
    + intros Hne.
      match goal with
      | |- context [c_true ?e] => replace (c_true e) with true
      end; [reflexivity |].
      unfold c_true.
      match goal with |- true = negb (?e =? 0) => now destruct (Z.eqb_spec e 0) end.
    + intros ->. reflexivity.
Qed.

(** X6: after create_advertising_coded has returned 0,
    start_advertising_coded starts the sets that were created, under the
    handles the host returned and in the order of their creation: the
    connectable set first, and the large set if the first start succeeded. *)
Theorem start_advertising_coded_uses_created_handles
    (env : Env) (work : work_item) (w w1 : World) :
  buffers_as_declared w = true ->
  create_advertising_coded env w = Ok 0 w1 ->
  exists new1 new2 w2 a1 a3,
    trace w1 = trace w ++ new1
    /\ created_handles new1 = [a1; a3]
    /\ start_advertising_coded env work w1 = Ok tt w2
    /\ trace w2 = trace w1 ++ new2
    /\ (started_handles new2 = [a1; a3] \/ started_handles new2 = [a1])
    /\ (started_handles new2 = [a1]
        <-> bt_le_ext_adv_start_ret env (trace w1) a1 <> 0).
Proof.
  intros Hwf Hrun.
  destruct (create_advertising_coded_cases env w Hwf) as (ce & Hok & Hce).
  rewrite Hce in Hrun. injection Hrun as Hres <-.
  destruct ce; cbn in Hok, Hres; try contradiction.
  eexists _, _, _, a1, a3.
  split; [reflexivity |]. split; [reflexivity |].
  split; [apply start_advertising_coded_run |].
  split; [reflexivity |]. cbv zeta.
  cbn [adv_conn adv_large set_trace create_end_statics built_world set_ad_large
       set_adv_mfg_last set_adv_mfg_full set_adv_large set_adv_conn].
  match goal with
  | |- context [c_true ?e] => destruct (c_true e) eqn:C1
  end.
  - apply c_true_true in C1. split; [right; reflexivity |].
    split; [intros _; exact C1 | reflexivity].
  - apply c_true_false in C1.
    match goal with
    | |- context [if c_true ?e then ev_printk _ _ else _] => destruct (c_true e)
    end;
      (split; [left; reflexivity |]);
      (split; [discriminate | intros Hne; contradiction]).
Qed.

Lemma start_advertising_coded_uses_created_handles_witness :
  buffers_as_declared (boot_world 100) = true
  /\ create_advertising_coded env_all_ok (boot_world 100)
     = Ok 0 (set_trace (create_end_trace (end_created 1 2))
               (create_end_statics (end_created 1 2) (boot_world 100)))
  /\ exists new1 new2 w2 a1 a3,
       trace (set_trace (create_end_trace (end_created 1 2))
                (create_end_statics (end_created 1 2) (boot_world 100)))
       = trace (boot_world 100) ++ new1
       /\ created_handles new1 = [a1; a3]
       /\ start_advertising_coded env_all_ok start_advertising_worker
            (set_trace (create_end_trace (end_created 1 2))
               (create_end_statics (end_created 1 2) (boot_world 100)))
          = Ok tt w2
       /\ trace w2
          = trace (set_trace (create_end_trace (end_created 1 2))
                     (create_end_statics (end_created 1 2) (boot_world 100)))
            ++ new2
       /\ (started_handles new2 = [a1; a3] \/ started_handles new2 = [a1])
       /\ (started_handles new2 = [a1]
           <-> bt_le_ext_adv_start_ret env_all_ok
                 (trace (set_trace (create_end_trace (end_created 1 2))
                           (create_end_statics (end_created 1 2) (boot_world 100))))
                 a1 <> 0).
Proof.
  split; [reflexivity |].
  split; [vm_compute; reflexivity |].
  apply (start_advertising_coded_uses_created_handles env_all_ok
           start_advertising_worker (boot_world 100)).
  - reflexivity.
  - vm_compute. reflexivity.
Defined.

(** ** The connection callbacks, continued *)

(** X7: whatever error code and whatever host it runs against, the
    connected callback writes exactly one log line, submits no work item and
    starts no advertising, and leaves every static alone; it switches the
    connection LED on if the error code is 0 and makes no LED call
    otherwise. *)
Theorem connected_led_on_iff_no_error
    (phy : gap_phy) (env : Env) (conn conn_err : Z) (w : World) :
  exists new,
    connected phy env conn conn_err w = Ok tt (set_trace (trace w ++ new) w)
    /\ List.filter is_led_event new
       = (if conn_err =? 0 then [ev_dk_set_led_on CON_STATUS_LED] else [])
    /\ length (List.filter is_printk new) = 1%nat
    /\ List.filter is_work_submission new = []
    /\ List.filter is_adv_start new = [].
Proof.
  destruct (Z.eqb_spec conn_err 0) as [-> | Hne].
  - destruct (connected_run phy env conn w)
      as (dst & addr & err & info & line & Hrun & _ & Hfail & Hgood).
    eexists. split; [exact Hrun |].
    destruct (Z.eq_dec err 0) as [He | He];
      [rewrite (Hgood He) | rewrite (Hfail He)]; repeat split.
  - destruct (connected_error_run phy env conn conn_err w Hne)
      as (dst & addr & s & Hrun).
    eexists. split; [exact Hrun |]. repeat split.
Qed.

(** X8: a connection that is established without error and then dropped:
    the two callbacks together switch the connection LED on and then off,
    submit start_advertising_worker once, after the LED went on, start no
    advertising themselves, and leave every static as it was. *)
Theorem connection_cycle
    (phy : gap_phy) (env : Env) (conn reason : Z) (w : World) :
  exists w1 new,
    connected phy env conn 0 w = Ok tt w1
    /\ disconnected env conn reason w1 = Ok tt (set_trace (trace w ++ new) w)
    /\ List.filter is_led_event new
       = [ev_dk_set_led_on CON_STATUS_LED; ev_dk_set_led_off CON_STATUS_LED]
    /\ List.filter (fun e => is_led_event e || is_work_submission e) new
       = [ev_dk_set_led_on CON_STATUS_LED;
          ev_k_work_submit start_advertising_worker;
          ev_dk_set_led_off CON_STATUS_LED]
    /\ List.filter is_adv_start new = [].
Proof.
  destruct (connected_run phy env conn w)
    as (dst & addr & err & info & line & Hrun & _ & Hfail & Hgood).
  destruct (disconnected_run env conn reason
              (set_trace
                 (trace w ++
                  [ev_bt_conn_get_dst conn dst; ev_bt_addr_le_to_str dst addr;
                   ev_bt_conn_get_info conn err info; line;
                   ev_dk_set_led_on CON_STATUS_LED]) w)) as (s & Hdis).
  eexists _,
    ([ev_bt_conn_get_dst conn dst; ev_bt_addr_le_to_str dst addr;
      ev_bt_conn_get_info conn err info; line;
      ev_dk_set_led_on CON_STATUS_LED]
     ++ [ev_bt_hci_err_to_str reason s;
         ev_printk ("Disconnected, reason 0x%02x %s" +:+ LF)
                   [arg_int reason; arg_str s];
         ev_k_work_submit start_advertising_worker;
         ev_dk_set_led_off CON_STATUS_LED]).
  split; [exact Hrun |].
  split.
  - rewrite Hdis. destruct w as [h c l full last ad b t]. cbn.
    rewrite <- !app_assoc. cbn [app]. reflexivity.
  - destruct (Z.eq_dec err 0) as [He | He];
      [rewrite (Hgood He) | rewrite (Hfail He)]; repeat split.
Qed.

(** ** The PHY names, continued *)

(** X9: the name phy_to_str returns identifies the code.  It returns
    "Unknown" exactly for the values that are none of the six PHY codes, and
    two values get the same name only if they are the same value or both
    unknown. *)
Theorem phy_to_str_names_identify_codes (phy : gap_phy) (c1 c2 : Z) :
  (phy_to_str phy c1 = "Unknown"
   <-> c1 ∉ [BT_GAP_LE_PHY_NONE phy; BT_GAP_LE_PHY_1M phy; BT_GAP_LE_PHY_2M phy;
             BT_GAP_LE_PHY_CODED phy; BT_GAP_LE_PHY_CODED_S8 phy;
             BT_GAP_LE_PHY_CODED_S2 phy])
  /\ (phy_to_str phy c1 = phy_to_str phy c2
      <-> c1 = c2
          \/ (phy_to_str phy c1 = "Unknown" /\ phy_to_str phy c2 = "Unknown")).
Proof.
  split.
  - rewrite !not_elem_of_cons. unfold phy_to_str.
    repeat match goal with
           | |- context [?a =? ?b] => destruct (Z.eqb_spec a b)
           end;
      (split; [intros H; try discriminate H; repeat split; try assumption;
               apply not_elem_of_nil
              | intros H; try reflexivity; exfalso; tauto]).
  - split.
    + unfold phy_to_str.
      repeat match goal with
             | |- context [?a =? ?b] => destruct (Z.eqb_spec a b)
             end;
        intros H; try discriminate H;
        first [left; congruence | right; split; reflexivity].
    + intros [-> | [-> ->]]; reflexivity.
Qed.

(** ** The simulated sensor values, continued *)

Lemma bas_notify_run_unchecked env w :
  CONFIG_ASSERT env && negb (to_uint8 (bas_battery_level w) >? 0) = false ->
  bas_notify env w
  = Ok tt (set_trace
             (trace w ++ bas_round (bas_battery_level w) (bas_next (bas_battery_level w)))
             (set_bas_battery_level (bas_next (bas_battery_level w)) w)).
Proof.
  intros Hchk. destruct w as [h c l full last ad b t]. cbn in Hchk.
  unfold bas_notify, bt_bas_get_battery_level, bt_bas_set_battery_level,
    __ASSERT_NO_MSG, emit, bas_round, bas_next, mbind, M_bind, gets, modify; cbn.
  rewrite Hchk. cbn. now rewrite <- app_assoc.
Qed.

Lemma bas_notify_run_assert env w :
  CONFIG_ASSERT env && negb (to_uint8 (bas_battery_level w) >? 0) = true ->
  bas_notify env w
  = Stop assertion_failed
      (set_trace (trace w ++ [ev_bt_bas_get_battery_level (bas_battery_level w)]) w).
Proof.
  intros Hchk. destruct w as [h c l full last ad b t]. cbn in Hchk.
  unfold bas_notify, bt_bas_get_battery_level, bt_bas_set_battery_level,
    __ASSERT_NO_MSG, emit, bas_round, bas_next, mbind, M_bind, gets, modify; cbn.
  rewrite Hchk. reflexivity.
Qed.

(** X10: bas_notify outside the levels 1 to 100, for a level the service
    can report (a byte).  At level 0 a build with assertions stops in
    __ASSERT_NO_MSG before anything is written; a build without them
    decrements the byte 0 to 255 and writes 255.  A level above 100 is
    decremented and written as it is, so one step does not bring it back
    into range unless it was 101. *)
Theorem bas_notify_outside_range (env : Env) (w : World) :
  0 <= bas_battery_level w <= 255 ->
  (bas_battery_level w = 0 -> CONFIG_ASSERT env = true ->
   bas_notify env w
   = Stop assertion_failed (set_trace (trace w ++ [ev_bt_bas_get_battery_level 0]) w))
  /\ (bas_battery_level w = 0 -> CONFIG_ASSERT env = false ->
      exists w',
        bas_notify env w = Ok tt w'
        /\ trace w' = trace w ++ [ev_bt_bas_get_battery_level 0;
                                  ev_bt_bas_set_battery_level 255])
  /\ (100 < bas_battery_level w ->
      exists w',
        bas_notify env w = Ok tt w'
        /\ trace w' = trace w ++ [ev_bt_bas_get_battery_level (bas_battery_level w);
                                  ev_bt_bas_set_battery_level (bas_battery_level w - 1)]).
Proof.
  intros Hb. split; [| split].
  - intros H0 Ha. rewrite bas_notify_run_assert; [now rewrite H0 |].
    rewrite H0, Ha. reflexivity.
  - intros H0 Ha. eexists. split.
    + apply bas_notify_run_unchecked. now rewrite Ha.
    + cbn. rewrite H0. reflexivity.
  - intros Hhi. eexists. split.
    + apply bas_notify_run_unchecked.
      replace (to_uint8 (bas_battery_level w) >? 0) with true;
        [apply andb_false_r |].
      symmetry. unfold to_uint8. rewrite Z.mod_small by lia. apply Z.gtb_lt. lia.
    + cbn. unfold bas_round, bas_next, to_uint8.
      rewrite (Z.mod_small (bas_battery_level w)) by lia.
      rewrite Z.mod_small by lia.
      now destruct (Z.eqb_spec (bas_battery_level w - 1) 0); [lia |].
Qed.

Lemma bas_notify_outside_range_witness :
  0 <= bas_battery_level (boot_world 0) <= 255
  /\ (bas_battery_level (boot_world 0) = 0 -> CONFIG_ASSERT env_no_assert = true ->
      bas_notify env_no_assert (boot_world 0)
      = Stop assertion_failed
          (set_trace (trace (boot_world 0) ++ [ev_bt_bas_get_battery_level 0])
             (boot_world 0)))
  /\ (bas_battery_level (boot_world 0) = 0 -> CONFIG_ASSERT env_no_assert = false ->
      exists w',
        bas_notify env_no_assert (boot_world 0) = Ok tt w'
        /\ trace w' = trace (boot_world 0) ++ [ev_bt_bas_get_battery_level 0;
                                               ev_bt_bas_set_battery_level 255])
  /\ (100 < bas_battery_level (boot_world 0) ->
      exists w',
        bas_notify env_no_assert (boot_world 0) = Ok tt w'
        /\ trace w'
           = trace (boot_world 0)
             ++ [ev_bt_bas_get_battery_level (bas_battery_level (boot_world 0));
                 ev_bt_bas_set_battery_level (bas_battery_level (boot_world 0) - 1)]).
Proof.
  split; [cbn; lia |].
  apply (bas_notify_outside_range env_no_assert (boot_world 0)). cbn. lia.
Defined.

Lemma iter_hr_next_mod k : forall j,
  Nat.iter k hr_next (100 + j mod 60) = 100 + (j + Z.of_nat k) mod 60.
Proof.
  induction k as [|k IH]; intros j.
  - cbn. now rewrite Z.add_0_r.
  - rewrite Nat.iter_succ_r, hr_next_mod, IH. do 2 f_equal. lia.
Qed.

Lemma bas_next_mod c : bas_next (c mod 100 + 1) = (c - 1) mod 100 + 1.
Proof.
  pose proof (Z.mod_pos_bound c 100 ltac:(lia)) as Hr.
  rewrite <- (Zminus_mod_idemp_l c 1 100).
  unfold bas_next, to_uint8.
  rewrite (Z.mod_small (c mod 100 + 1) 256) by lia.
  replace (c mod 100 + 1 - 1) with (c mod 100) by lia.
  rewrite (Z.mod_small (c mod 100) 256) by lia.
  destruct (Z.eqb_spec (c mod 100) 0) as [E | E].
  - rewrite E. reflexivity.
  - rewrite (Z.mod_small (c mod 100 - 1)) by lia. lia.
Qed.

Lemma iter_bas_next_mod k : forall c,
  Nat.iter k bas_next (c mod 100 + 1) = (c - Z.of_nat k) mod 100 + 1.
Proof.
  induction k as [|k IH]; intros c.
  - cbn. now rewrite Z.sub_0_r.
  - rewrite Nat.iter_succ_r, bas_next_mod, IH. do 2 f_equal. lia.
Qed.

Lemma handler_rounds_hrs work n : forall h b,
  hrs_notified (handler_rounds work h b n) = hr_seq h n.
Proof.
  induction n as [|n IH]; intros h b; [reflexivity |].
  cbn. f_equal. apply IH.
Qed.

Lemma handler_rounds_bas work n : forall h b,
  bas_levels_set (handler_rounds work h b n) = bas_seq b n.
Proof.
  induction n as [|n IH]; intros h b; [reflexivity |].
  cbn. f_equal. apply IH.
Qed.

Lemma handler_rounds_work work n : forall h b,
  List.filter is_work_submission (handler_rounds work h b n)
  = replicate n (ev_k_work_reschedule work (K_MSEC NOTIFY_INTERVAL)).
Proof.
  induction n as [|n IH]; intros h b; [reflexivity |].
  cbn. f_equal. apply IH.
Qed.

Lemma notify_work_handler_runs_exact env work n : forall w,
  1 <= bas_battery_level w <= 100 ->
  repeat_run n (notify_work_handler env work) w
  = Ok tt (set_trace
             (trace w ++ handler_rounds work (heartrate w) (bas_battery_level w) n)
             (set_bas_battery_level (Nat.iter n bas_next (bas_battery_level w))
                (set_heartrate (Nat.iter n hr_next (heartrate w)) w))).
Proof.
  induction n as [|n IH]; intros w Hb.
  - destruct w; cbn. now rewrite app_nil_r.
  - cbn [repeat_run].
    erewrite bind_Ok by (apply notify_work_handler_run; exact Hb).
    rewrite IH by (cbn; now apply bas_next_range).
    rewrite !Nat.iter_succ_r.
    destruct w as [h c l full last ad b t]. cbn -[handler_round].
    now rewrite <- app_assoc.
Qed.

(** X11: the two simulated values in closed form.  From a heart rate h in
    [100,159] and a battery level b in [1,100], [n] firings of
    notify_work_handler all return; the k-th firing notifies the heart rate
    100 + ((h - 100 + k) mod 60) and writes the battery level
    ((b - 1 - k) mod 100) + 1, the statics end at these values for k = n, and
    every firing reschedules the work item once, 1000 ms ahead. *)
Theorem notify_work_handler_closed_form (env : Env) (n : nat) (w : World) :
  100 <= heartrate w <= 159 ->
  1 <= bas_battery_level w <= 100 ->
  exists w' new,
    repeat_run n (notify_work_handler env notify_work) w = Ok tt w'
    /\ trace w' = trace w ++ new
    /\ heartrate w' = 100 + (heartrate w - 100 + Z.of_nat n) mod 60
    /\ bas_battery_level w' = (bas_battery_level w - 1 - Z.of_nat n) mod 100 + 1
    /\ (forall k, (1 <= k <= n)%nat ->
          hrs_notified new !! (k - 1)%nat
          = Some (100 + (heartrate w - 100 + Z.of_nat k) mod 60)
          /\ bas_levels_set new !! (k - 1)%nat
             = Some ((bas_battery_level w - 1 - Z.of_nat k) mod 100 + 1))
    /\ List.filter is_work_submission new
       = replicate n (ev_k_work_reschedule notify_work (K_MSEC 1000)).
Proof.
  intros Hh Hb.
  assert (Eh : heartrate w = 100 + (heartrate w - 100) mod 60)
    by (rewrite Z.mod_small by lia; lia).
  assert (Eb : bas_battery_level w = (bas_battery_level w - 1) mod 100 + 1)
    by (rewrite Z.mod_small by lia; lia).
  eexists _, _. split; [now apply notify_work_handler_runs_exact |].
  split; [reflexivity |].
  split; [cbn; rewrite Eh at 1; apply iter_hr_next_mod |].
  split; [cbn; rewrite Eb at 1; rewrite iter_bas_next_mod; do 2 f_equal; lia |].
  split; [| apply handler_rounds_work].
  intros k Hk. rewrite handler_rounds_hrs, handler_rounds_bas. split.
  - rewrite Eh at 1. rewrite hr_seq_lookup_mod by lia. do 3 f_equal. lia.
  - rewrite bas_seq_lookup_iter by lia. f_equal.
    rewrite Eb at 1. rewrite iter_bas_next_mod. do 2 f_equal. lia.
Qed.

Lemma notify_work_handler_closed_form_witness :
  100 <= heartrate (boot_world 37) <= 159
  /\ 1 <= bas_battery_level (boot_world 37) <= 100
  /\ exists w' new,
       repeat_run 70 (notify_work_handler env_all_ok notify_work) (boot_world 37)
       = Ok tt w'
       /\ trace w' = trace (boot_world 37) ++ new
       /\ heartrate w' = 100 + (heartrate (boot_world 37) - 100 + Z.of_nat 70) mod 60
       /\ bas_battery_level w'
          = (bas_battery_level (boot_world 37) - 1 - Z.of_nat 70) mod 100 + 1
       /\ (forall k, (1 <= k <= 70)%nat ->
             hrs_notified new !! (k - 1)%nat
             = Some (100 + (heartrate (boot_world 37) - 100 + Z.of_nat k) mod 60)
             /\ bas_levels_set new !! (k - 1)%nat
                = Some ((bas_battery_level (boot_world 37) - 1 - Z.of_nat k) mod 100 + 1))
       /\ List.filter is_work_submission new
          = replicate 70 (ev_k_work_reschedule notify_work (K_MSEC 1000)).
Proof.
  split; [cbn; lia |]. split; [cbn; lia |].
  apply (notify_work_handler_closed_form env_all_ok 70 (boot_world 37)); cbn; lia.
Defined.

(** X12: the simulation is periodic.  The heart rate repeats every 60
    firings of notify_work_handler and the battery level every 100, so after
    300 firings both statics are back at the values they started from. *)
Theorem notify_work_handler_period (env : Env) (w : World) :
  100 <= heartrate w <= 159 ->
  1 <= bas_battery_level w <= 100 ->
  (exists w',
     repeat_run 60 (notify_work_handler env notify_work) w = Ok tt w'
     /\ heartrate w' = heartrate w)
  /\ (exists w',
        repeat_run 100 (notify_work_handler env notify_work) w = Ok tt w'
        /\ bas_battery_level w' = bas_battery_level w)
  /\ (exists w',
        repeat_run 300 (notify_work_handler env notify_work) w = Ok tt w'
        /\ heartrate w' = heartrate w
        /\ bas_battery_level w' = bas_battery_level w).
Proof.
  intros Hh Hb.
  assert (Eh : heartrate w = 100 + (heartrate w - 100) mod 60)
    by (rewrite Z.mod_small by lia; lia).
  assert (Eb : bas_battery_level w = (bas_battery_level w - 1) mod 100 + 1)
    by (rewrite Z.mod_small by lia; lia).
  assert (Ph : forall m : nat,
             Nat.iter (60 * m) hr_next (heartrate w) = heartrate w).
  { intros m. rewrite Eh at 1. rewrite iter_hr_next_mod.
    replace (heartrate w - 100 + Z.of_nat (60 * m))
      with (heartrate w - 100 + Z.of_nat m * 60) by lia.
    rewrite Z.mod_add by lia. now rewrite <- Eh. }
  assert (Pb : forall m : nat,
             Nat.iter (100 * m) bas_next (bas_battery_level w) = bas_battery_level w).
  { intros m. rewrite Eb at 1. rewrite iter_bas_next_mod.
    replace (bas_battery_level w - 1 - Z.of_nat (100 * m))
      with (bas_battery_level w - 1 + (- Z.of_nat m) * 100) by lia.
    rewrite Z.mod_add by lia. now rewrite <- Eb. }
  split; [| split].
  - eexists. split; [now apply notify_work_handler_runs_exact |].
    cbn [heartrate set_trace set_bas_battery_level set_heartrate]. apply (Ph 1%nat).
  - eexists. split; [now apply notify_work_handler_runs_exact |].
    cbn [bas_battery_level set_trace set_bas_battery_level set_heartrate].
    apply (Pb 1%nat).
  - eexists. split; [now apply notify_work_handler_runs_exact |].
    cbn [heartrate bas_battery_level set_trace set_bas_battery_level set_heartrate].
    split; [apply (Ph 5%nat) | apply (Pb 3%nat)].
Qed.

Lemma notify_work_handler_period_witness :
  100 <= heartrate (boot_world 37) <= 159
  /\ 1 <= bas_battery_level (boot_world 37) <= 100
  /\ (exists w',
        repeat_run 60 (notify_work_handler env_all_ok notify_work) (boot_world 37)
        = Ok tt w'
        /\ heartrate w' = heartrate (boot_world 37))
  /\ (exists w',
        repeat_run 100 (notify_work_handler env_all_ok notify_work) (boot_world 37)
        = Ok tt w'
        /\ bas_battery_level w' = bas_battery_level (boot_world 37))
  /\ (exists w',
        repeat_run 300 (notify_work_handler env_all_ok notify_work) (boot_world 37)
        = Ok tt w'
        /\ heartrate w' = heartrate (boot_world 37)
        /\ bas_battery_level w' = bas_battery_level (boot_world 37)).
Proof.
  split; [cbn; lia |]. split; [cbn; lia |].
  apply (notify_work_handler_period env_all_ok (boot_world 37)); cbn; lia.
Defined.

(** ** The large advertising payload, continued *)

(** X13: build_large_adv_payload writes the three payload buffers and
    nothing else: it makes no call, and [heartrate], the two handles and the
    battery level are as before.  What it leaves in the buffers does not
    depend on what they held, so running it again changes nothing. *)
Theorem build_large_adv_payload_idempotent (w v : World) :
  buffers_as_declared w = true ->
  buffers_as_declared v = true ->
  exists w' v',
    build_large_adv_payload w = Ok tt w'
    /\ build_large_adv_payload w' = Ok tt w'
    /\ trace w' = trace w /\ heartrate w' = heartrate w
    /\ adv_conn w' = adv_conn w /\ adv_large w' = adv_large w
    /\ bas_battery_level w' = bas_battery_level w
    /\ build_large_adv_payload v = Ok tt v'
    /\ adv_mfg_full v' = adv_mfg_full w'
    /\ adv_mfg_last v' = adv_mfg_last w'
    /\ ad_large v' = ad_large w'.
Proof.
  intros Hw Hv. exists (built_world w), (built_world v).
  split; [now apply build_large_adv_payload_run |].
  split.
  - rewrite build_large_adv_payload_run by now destruct w.
    now destruct w.
  - repeat split. now apply build_large_adv_payload_run.
Qed.

Lemma build_large_adv_payload_idempotent_witness :
  buffers_as_declared (boot_world 100) = true
  /\ buffers_as_declared (built_world (boot_world 7)) = true
  /\ exists w' v',
       build_large_adv_payload (boot_world 100) = Ok tt w'
       /\ build_large_adv_payload w' = Ok tt w'
       /\ trace w' = trace (boot_world 100)
       /\ heartrate w' = heartrate (boot_world 100)
       /\ adv_conn w' = adv_conn (boot_world 100)
       /\ adv_large w' = adv_large (boot_world 100)
       /\ bas_battery_level w' = bas_battery_level (boot_world 100)
       /\ build_large_adv_payload (built_world (boot_world 7)) = Ok tt v'
       /\ adv_mfg_full v' = adv_mfg_full w'
       /\ adv_mfg_last v' = adv_mfg_last w'
       /\ ad_large v' = ad_large w'.
Proof.
  split; [reflexivity |]. split; [reflexivity |].
  apply (build_large_adv_payload_idempotent (boot_world 100)
           (built_world (boot_world 7))); reflexivity.
Defined.

(** X14: the entries of the built payload point into the static buffers
    and fit them.  No entry has a null data pointer, no two entries share a
    buffer, and each entry's data length is exactly the size of the buffer
    it points to, so reading [data_len] bytes from [data] stays inside the
    buffer and covers all of it. *)
Theorem large_adv_payload_entries_fit_buffers (w : World) :
  buffers_as_declared w = true ->
  exists w',
    build_large_adv_payload w = Ok tt w'
    /\ Forall (fun e => data e <> NULL
                        /\ Z.of_nat (length (deref w' (data e))) = data_len e
                        /\ entry_bytes w' e = deref w' (data e))
              (ad_large w')
    /\ NoDup (data <$> ad_large w').
Proof.
  intros Hwf. exists (built_world w).
  split; [now apply build_large_adv_payload_run |].
  split.
  - cbn [built_world set_ad_large ad_large fmap list_fmap app].
    repeat (apply Forall_cons_2;
            [split; [discriminate | split; vm_compute; reflexivity] |]).
    apply Forall_nil_2.
  - cbn. rewrite !NoDup_cons, !not_elem_of_cons.
    repeat split; try discriminate; try apply not_elem_of_nil.
    apply NoDup_nil_2.
Qed.

Lemma large_adv_payload_entries_fit_buffers_witness :
  buffers_as_declared (boot_world 100) = true
  /\ exists w',
       build_large_adv_payload (boot_world 100) = Ok tt w'
       /\ Forall (fun e => data e <> NULL
                           /\ Z.of_nat (length (deref w' (data e))) = data_len e
                           /\ entry_bytes w' e = deref w' (data e))
                 (ad_large w')
       /\ NoDup (data <$> ad_large w').
Proof.
  split; [reflexivity |].
  apply (large_adv_payload_entries_fit_buffers (boot_world 100)). reflexivity.
Defined.

(** Without assertions, bas_notify at level 0 writes 255. *)
Example bas_notify_at_level_zero_unchecked :
  bas_notify env_no_assert (boot_world 0)
  = Ok tt
       (set_trace [ev_bt_bas_get_battery_level 0; ev_bt_bas_set_battery_level 255]
          (set_bas_battery_level 255 (boot_world 0))).
Proof. vm_compute. reflexivity. Qed.

(** The worker against a host that refuses to start the connectable set
    with -EALREADY (-120): the large set is not touched. *)
Example start_advertising_coded_when_first_start_fails :
  start_advertising_coded
    (mk_Env true (fun _ c => c) (fun _ _ => EmptyString) (fun _ _ => EmptyString)
       (fun _ _ => (0, mk_phy_info 0 0)) (fun _ => 0) (fun _ => 0)
       (fun _ _ old => (0, old)) (fun _ _ _ _ => 0) (fun _ _ => -120))
    start_advertising_worker
    (set_adv_large 2 (set_adv_conn 1 (boot_world 100)))
  = Ok tt
       (set_trace
          [ev_bt_le_ext_adv_start 1 (-120);
           ev_printk ("Failed to start connectable advertiser (err %d)" +:+ LF)
                     [arg_int (-120)]]
          (set_adv_large 2 (set_adv_conn 1 (boot_world 100)))).
Proof. vm_compute. reflexivity. Qed.
